(** * Notes API (Express, JSON file store): a shallow embedding of
    [src/solution/index.js] and the properties of its five routes.

    Part I is the model: JavaScript strings and numbers as the handlers
    use them, the notes file with the state-and-exception monad the
    async handlers run in, [validateNote], the five handlers, and the
    listing pipeline in the words of the specification.  Part II proves
    the properties, route by route. *)

From Stdlib Require Import String Ascii NArith ZArith Lia.
From stdpp Require Import base option list numbers.

Local Open Scope N_scope.

(* ##################################################################### *)
(** * Part I: the model *)
(* ##################################################################### *)

(* ===================================================================== *)
(** ** JavaScript strings *)
(* ===================================================================== *)

(** A JavaScript string is a sequence of UTF-16 code units; [length] of
    the list is the [.length] of the string. *)
Abbreviation jsstring := (list N).

(** The code units of an ASCII literal. *)
Definition js (s : string) : jsstring :=
  N_of_ascii <$> list_ascii_of_string s.

(** ECMAScript [WhiteSpace] and [LineTerminator] code points, the ones
    [String.prototype.trim] and [parseInt] strip: TAB, LF, VT, FF, CR,
    SP, NBSP, U+1680, U+2000..U+200A, LS, PS, U+202F, U+205F, U+3000 and
    the BOM. *)
Definition whiteSpace : list N :=
  [9; 10; 11; 12; 13; 32; 160; 5760;
   8192; 8193; 8194; 8195; 8196; 8197; 8198; 8199; 8200; 8201; 8202;
   8232; 8233; 8239; 8287; 12288; 65279].

Definition isWhiteSpace (c : N) : bool := existsb (N.eqb c) whiteSpace.

Fixpoint trimStart (s : jsstring) : jsstring :=
  match s with
  | c :: s' => if isWhiteSpace c then trimStart s' else s
  | [] => []
  end.

Definition trimEnd (s : jsstring) : jsstring := rev (trimStart (rev s)).

(** [String.prototype.trim]. *)
Definition trim (s : jsstring) : jsstring := trimEnd (trimStart s).

(** Nothing to trim at the start. *)
Definition startTrimmed (s : jsstring) : Prop :=
  match s with
  | [] => True
  | c :: _ => isWhiteSpace c = false
  end.

Fixpoint startsWith (s sub : jsstring) {struct sub} : bool :=
  match sub, s with
  | [], _ => true
  | _ :: _, [] => false
  | a :: sub', b :: s' => (a =? b) && startsWith s' sub'
  end.

(** [String.prototype.includes]: does [sub] occur in [s] at some
    position? *)
Fixpoint includes (s sub : jsstring) : bool :=
  startsWith s sub ||
  match s with
  | [] => false
  | _ :: s' => includes s' sub
  end.

(** What the specification calls "contains as a substring". *)
Definition substring_of (sub s : jsstring) : Prop :=
  exists pre post, s = pre ++ sub ++ post.

(** [startsWith] and [includes] decide what they are named after, which
    makes substring containment usable as a filter. *)
Lemma startsWith_spec (s sub : jsstring) :
  startsWith s sub = true <-> exists post, s = sub ++ post.
Proof.
  revert s. induction sub as [|a sub IH]; intros s; simpl.
  - split; [intros _; by exists s | done].
  - destruct s as [|b s].
    + split; [done | intros [post H]; discriminate].
    + rewrite andb_true_iff, N.eqb_eq, IH. split.
      * intros [-> [post ->]]. by exists post.
      * intros [post H]. injection H as -> ->. eauto.
Qed.

(** [includes] decides substring containment. *)
Lemma includes_spec (s sub : jsstring) :
  includes s sub = true <-> substring_of sub s.
Proof.
  unfold substring_of. induction s as [|b s IH].
  - simpl. rewrite orb_false_r, startsWith_spec. split.
    + intros [post H]. by exists [], post.
    + intros [pre [post H]]. destruct pre; [by exists post | discriminate].
  - cbn [includes]. rewrite orb_true_iff, startsWith_spec, IH. split.
    + intros [[post H] | [pre [post H]]].
      * by exists [], post.
      * exists (b :: pre), post. by rewrite H.
    + intros [pre [post H]]. destruct pre as [|c pre].
      * left. by exists post.
      * right. injection H as _ H. eauto.
Qed.

#[global] Instance substring_of_dec (sub s : jsstring) :
  Decision (substring_of sub s).
Proof.
  refine (cast_if (decide (includes s sub = true)));
    abstract (by rewrite <- includes_spec).
Defined.

(** ASCII lower-casing of one code unit.  On strings of ASCII code units
    [String.prototype.toLowerCase] is this map. *)
Definition lowerUnit (c : N) : N :=
  if (65 <=? c) && (c <=? 90) then c + 32 else c.

(** [toLowerCase] on ASCII strings. *)
Definition lowerASCII (s : jsstring) : jsstring := lowerUnit <$> s.


(* ===================================================================== *)
(** ** JavaScript numbers *)
(* ===================================================================== *)

(** The numbers the handlers compute with are doubles whose values are
    integers, NaN and the infinities.  A finite number is a sign and a
    magnitude, so that [-0] (which [parseInt] returns for ["-0"]) is a
    value of its own.  Every integer below 2^53 is a double; a larger
    one is a double only if it has at most 53 significant bits and is
    below 2^1024, and [toDouble] is what brings an exact integer result
    back to the doubles. *)
Inductive num : Type :=
  | NaN
  | Inf (neg : bool)
  | Fin (neg : bool) (m : N).

(** The double nearest to the integer [m], ties to the even significand,
    and infinity from 2^1024 - 2^970 on (IEEE 754 round to nearest, the
    rounding of every JavaScript operation). *)
Definition toDouble (neg : bool) (m : N) : num :=
  if m <? 2 ^ 53 then Fin neg m
  else
    let e := N.log2 m - 52 in
    let q := m / 2 ^ e in
    let r := m mod 2 ^ e in
    let half := 2 ^ (e - 1) in
    let q' :=
      if (half <? r) || ((r =? half) && N.odd q) then q + 1 else q in
    if 2 ^ 1024 <=? q' * 2 ^ e then Inf neg else Fin neg (q' * 2 ^ e).

Definition numOfN (n : N) : num := Fin false n.
Definition numOfNat (n : nat) : num := Fin false (N.of_nat n).

Definition num_to_Z (neg : bool) (m : N) : Z :=
  if neg then (- Z.of_N m)%Z else Z.of_N m.

Definition num_neg (x : num) : num :=
  match x with
  | NaN => NaN
  | Inf s => Inf (negb s)
  | Fin s m => Fin (negb s) m
  end.

(** [x + y]: the exact sum, rounded.  An exact zero sum is [+0] unless
    both operands are [-0]. *)
Definition num_add (x y : num) : num :=
  match x, y with
  | NaN, _ | _, NaN => NaN
  | Inf a, Inf b => if Bool.eqb a b then Inf a else NaN
  | Inf a, Fin _ _ => Inf a
  | Fin _ _, Inf b => Inf b
  | Fin s1 m1, Fin s2 m2 =>
      let z := (num_to_Z s1 m1 + num_to_Z s2 m2)%Z in
      if (z =? 0)%Z then Fin (s1 && s2) 0
      else toDouble (z <? 0)%Z (Z.abs_N z)
  end.

(** [x - y]. *)
Definition num_sub (x y : num) : num := num_add x (num_neg y).

(** [x * y]: the exact product, rounded. *)
Definition num_mul (x y : num) : num :=
  match x, y with
  | NaN, _ | _, NaN => NaN
  | Inf a, Inf b => Inf (xorb a b)
  | Inf a, Fin s m | Fin s m, Inf a =>
      if m =? 0 then NaN else Inf (xorb a s)
  | Fin s1 m1, Fin s2 m2 => toDouble (xorb s1 s2) (m1 * m2)
  end.

(** [Math.ceil(x / y)]: the quotient is not an integer in general, so
    the division and the rounding up are one operation here.  For a
    dividend below 2^53, as an array length is, the rounding of the
    quotient to a double does not change its ceiling. *)
Definition num_ceil_div (x y : num) : num :=
  match x, y with
  | NaN, _ | _, NaN => NaN
  | Inf _, Inf _ => NaN
  | Inf a, Fin s _ => Inf (xorb a s)
  | Fin s _, Inf b => Fin (xorb s b) 0
  | Fin s1 m1, Fin s2 m2 =>
      if m2 =? 0 then (if m1 =? 0 then NaN else Inf (xorb s1 s2))
      else if xorb s1 s2 then Fin true (m1 / m2)
      else Fin false ((m1 + m2 - 1) / m2)
  end.

(** A relative index of [Array.prototype.slice] on an array of [len]
    elements: ToIntegerOrInfinity, negative values counted from the end,
    the result clamped to [0, len]. *)
Definition sliceIndex (len : nat) (x : num) : nat :=
  match x with
  | Fin true 0 => 0
  | NaN => 0
  | Inf true => 0
  | Inf false => len
  | Fin false m => N.to_nat (N.min m (N.of_nat len))
  | Fin true m => len - N.to_nat (N.min m (N.of_nat len))
  end%nat.

(** [xs.slice(start, end)]. *)
Definition slice {A} (xs : list A) (start end_ : num) : list A :=
  let k := sliceIndex (length xs) start in
  let final := sliceIndex (length xs) end_ in
  take (final - k) (drop k xs).

(** *** Decimal digits *)

Fixpoint decimalFuel (fuel : nat) (n : N) (acc : jsstring) : jsstring :=
  match fuel with
  | O => acc
  | S fuel' =>
      let acc' := (48 + n mod 10) :: acc in
      if n / 10 =? 0 then acc' else decimalFuel fuel' (n / 10) acc'
  end.

(** The decimal numeral of a natural number, without leading zeros. *)
Definition decimal (n : N) : jsstring :=
  decimalFuel (S (N.to_nat (N.size n))) n [].

(** ToString of a number, as [parseInt] applies it to a non-string
    argument (integers below 10^21 print without an exponent). *)
Definition numToString (x : num) : jsstring :=
  match x with
  | NaN => js "NaN"
  | Inf false => js "Infinity"
  | Inf true => js "-Infinity"
  | Fin s m => if s && negb (m =? 0) then 45 :: decimal m else decimal m
  end.

(** The value of a code unit as a digit: [0-9], [a-z], [A-Z]. *)
Definition digitValue (c : N) : option N :=
  if (48 <=? c) && (c <=? 57) then Some (c - 48)
  else if (97 <=? c) && (c <=? 122) then Some (c - 87)
  else if (65 <=? c) && (c <=? 90) then Some (c - 55)
  else None.

(** The digits of the longest prefix of [s] made of radix-[R] digits. *)
Fixpoint digitsPrefix (R : N) (s : jsstring) : list N :=
  match s with
  | [] => []
  | c :: s' =>
      match digitValue c with
      | Some d => if d <? R then d :: digitsPrefix R s' else []
      | None => []
      end
  end.

Definition digitsValue (R : N) (ds : list N) : N :=
  fold_left (fun acc d => acc * R + d) ds 0.

(** [parseInt(s)] on a string, no radix argument: leading white space
    and one sign are skipped, a [0x]/[0X] prefix selects radix 16, and
    the longest run of digits is the value, as a double; no digit at all
    is NaN.  (For a decimal numeral of more than 20 significant digits
    ECMAScript lets an engine read the digits after the 20th as zeros;
    the rounding here is that of the exact value, as V8 does it.) *)
Definition parseIntString (s : jsstring) : num :=
  let s1 := trimStart s in
  let '(sign, s2) :=
    match s1 with
    | c :: r => if c =? 45 then (true, r)
                else if c =? 43 then (false, r)
                else (false, s1)
    | [] => (false, s1)
    end in
  let '(R, s3) :=
    match s2 with
    | c :: x :: r =>
        if (c =? 48) && ((x =? 120) || (x =? 88)) then (16, r) else (10, s2)
    | _ => (10, s2)
    end in
  match digitsPrefix R s3 with
  | [] => NaN
  | ds => toDouble sign (digitsValue R ds)
  end.

Definition isDigit (c : N) : Prop := 48 <= c <= 57.

Definition digitsOf (s : jsstring) : list N := (fun c => c - 48) <$> s.

(* ===================================================================== *)
(** ** Values, notes and the notes file *)
(* ===================================================================== *)

(** A field of the parsed JSON request body.  [VUndefined] is an absent
    field; [VObject] stands for arrays and objects. *)
Inductive jsval : Type :=
  | VUndefined
  | VNull
  | VBool (b : bool)
  | VNum (x : num)
  | VStr (s : jsstring)
  | VObject.

(** ToBoolean. *)
Definition truthy (v : jsval) : bool :=
  match v with
  | VUndefined | VNull => false
  | VBool b => b
  | VNum NaN => false
  | VNum (Inf _) => true
  | VNum (Fin _ m) => negb (m =? 0)
  | VStr s => negb (bool_decide (s = []))
  | VObject => true
  end.

Record Note : Type := mkNote {
  id : jsstring;
  title : jsstring;
  content : jsstring;
  createdAt : jsstring;
  deleted : bool
}.

#[global] Instance Note_eq_dec : EqDecision Note.
Proof. solve_decision. Defined.

(** The state of [notes.json]: not there, there but not readable as JSON
    ([JSON.parse] throws), or holding an array of notes.  [fs.writeFile]
    is taken to succeed. *)
Inductive file : Type :=
  | Missing
  | Malformed
  | Stored (notes : list Note).

(** The collection [readNotesFile] hands to a handler. *)
Definition collection (f : file) : option (list Note) :=
  match f with
  | Missing => Some []
  | Malformed => None
  | Stored notes => Some notes
  end.

(** The data model's invariant: no two records share an id. *)
Definition uniqueIds (notes : list Note) : Prop := NoDup (id <$> notes).

Inductive exn : Type :=
  | ENOENT
  | SyntaxError
  | TypeError.

(** *** The monad of the handlers: the file as state, exceptions *)

Inductive outcome (A : Type) : Type :=
  | Return (a : A)
  | Throw (e : exn).
Arguments Return {A} a.
Arguments Throw {A} e.

Definition M (A : Type) : Type := file -> outcome A * file.

Definition ret {A} (a : A) : M A := fun f => (Return a, f).
Definition throw {A} (e : exn) : M A := fun f => (Throw e, f).

Definition bind {A B} (m : M A) (k : A -> M B) : M B :=
  fun f =>
    match m f with
    | (Return a, f') => k a f'
    | (Throw e, f') => (Throw e, f')
    end.

(** [try { m } catch (error) { h error }]. *)
Definition try_catch {A} (m : M A) (h : exn -> M A) : M A :=
  fun f =>
    match m f with
    | (Return a, f') => (Return a, f')
    | (Throw e, f') => h e f'
    end.

Notation "'await' x <- m ; k" := (bind m (fun x => k))
  (at level 10, x name, m at level 100, k at level 200).

(** [JSON.parse(await fs.readFile(NOTES_FILE, 'utf8'))]. *)
Definition readAndParse : M (list Note) :=
  fun f =>
    match f with
    | Missing => (Throw ENOENT, f)
    | Malformed => (Throw SyntaxError, f)
    | Stored notes => (Return notes, f)
    end.

Definition writeNotesFile (notes : list Note) : M unit :=
  fun _ => (Return tt, Stored notes).

Definition readNotesFile : M (list Note) :=
  try_catch readAndParse
    (fun error =>
       match error with
       | ENOENT => await _ <- writeNotesFile []; ret []
       | _ => throw error
       end).

(** *** Responses *)

Record Pagination : Type := mkPagination {
  page : num;
  limit : num;
  total : num;
  totalPages : num
}.

Inductive body : Type :=
  | NotesPage (notes : list Note) (pagination : Pagination)
  | OneNote (note : Note)
  | Message (message : jsstring)
  | Error (error : jsstring)
  | ValidationError (error : jsstring) (details : list jsstring).

Record response : Type := mkResponse {
  status : nat;
  payload : body
}.

(** [res.json(b)] and [res.status(c).json(b)]. *)
Definition json (b : body) : response := mkResponse 200 b.
Definition status_json (c : nat) (b : body) : response := mkResponse c b.

Definition notFound : response :=
  status_json 404 (Error (js "Note not found")).
Definition internalError : response :=
  status_json 500 (Error (js "Internal server error")).

Definition deletedOk : response :=
  mkResponse 200 (Message (js "Note deleted successfully")).

(** The [try { ... } catch (error) { res.status(500)... }] around every
    handler. *)
Definition handler (m : M response) : file -> response * file :=
  fun f =>
    match m f with
    | (Return r, f') => (r, f')
    | (Throw _, f') => (internalError, f')
    end.

(* ===================================================================== *)
(** ** validateNote *)
(* ===================================================================== *)

Definition titleRequired : jsstring :=
  js "Title is required and must be a non-empty string".
Definition titleTooLong : jsstring :=
  js "Title must be 100 characters or less".
Definition contentRequired : jsstring :=
  js "Content is required and must be a non-empty string".

(** [!v || typeof v !== 'string' || v.trim() === ''], evaluated left to
    right. *)
Definition blank (v : jsval) : bool :=
  if negb (truthy v) then true
  else match v with
       | VStr s => bool_decide (trim s = [])
       | _ => true
       end.

Definition validateNote (title content : jsval) : list jsstring :=
  let errors := [] in
  let errors :=
    if blank title then errors ++ [titleRequired]
    else match title with
         | VStr s => if (100 <? length s)%nat then errors ++ [titleTooLong]
                     else errors
         | _ => errors
         end in
  let errors :=
    if blank content then errors ++ [contentRequired] else errors in
  errors.

(** [v.trim()]: a method call, which throws on anything but a string. *)
Definition trimVal (v : jsval) : M jsstring :=
  match v with
  | VStr s => ret (trim s)
  | _ => throw TypeError
  end.

(* ===================================================================== *)
(** ** The routes *)
(* ===================================================================== *)

(** [req.query] of [GET /notes]: each parameter absent or a string.
    (A parameter that is repeated or written with brackets reaches the
    handler as an array or an object; those requests are not modelled.) *)
Record query : Type := mkQuery {
  q_page : option jsstring;
  q_limit : option jsstring;
  q_search : option jsstring;
  q_includeDeleted : option jsstring
}.

(** What [parseInt] is applied to: the query string, or the number the
    destructuring default put in its place. *)
Inductive qarg : Type :=
  | QNum (x : num)
  | QStr (s : jsstring).

Definition orDefault (v : option jsstring) (d : qarg) : qarg :=
  match v with
  | Some s => QStr s
  | None => d
  end.

Definition parseInt (v : qarg) : num :=
  match v with
  | QStr s => parseIntString s
  | QNum x => parseIntString (numToString x)
  end.

(** [Array.prototype.findIndex] ([None] for [-1]) and
    [Array.prototype.find] ([None] for [undefined]), both for the test
    [n => n.id === noteId]. *)
Definition findIndex (noteId : jsstring) (notes : list Note) : option nat :=
  fst <$> list_find (fun n => id n = noteId) notes.

Definition find (noteId : jsstring) (notes : list Note) : option Note :=
  snd <$> list_find (fun n => id n = noteId) notes.

(** [{ ...old, title: t, content: c }]. *)
Definition withTitleContent (old : Note) (t c : jsstring) : Note :=
  mkNote (id old) t c (createdAt old) (deleted old).

(** [old.deleted = true]. *)
Definition markDeleted (old : Note) : Note :=
  mkNote (id old) (title old) (content old) (createdAt old) true.

Definition validationFailed (details : list jsstring) : response :=
  status_json 400 (ValidationError (js "Validation failed") details).

Section Routes.

(** [String.prototype.toLowerCase] follows the Unicode case mappings;
    the routes are modelled over any such function, and the examples
    run them with the ASCII one. *)
Variable toLowerCase : jsstring -> jsstring.

(** Lines 56-70 of [GET /notes]: the two filters. *)
Definition filterNotes (includeDeleted : jsstring)
    (search : option jsstring) (notes : list Note) : list Note :=
  let filteredNotes := notes in
  let filteredNotes :=
    if bool_decide (includeDeleted <> js "true")
    then List.filter (fun note => negb (deleted note)) filteredNotes
    else filteredNotes in
  match search with
  | Some (c :: s) =>
      let searchTerm := toLowerCase (c :: s) in
      List.filter
        (fun note =>
           includes (toLowerCase (title note)) searchTerm ||
           includes (toLowerCase (content note)) searchTerm)
        filteredNotes
  | _ => filteredNotes
  end.

(** [GET /notes]. *)
Definition listNotes (q : query) : file -> response * file :=
  handler (
    await notes <- readNotesFile;
    let page_ := orDefault (q_page q) (QNum (numOfN 1)) in
    let limit_ := orDefault (q_limit q) (QNum (numOfN 10)) in
    let includeDeleted := default (js "false") (q_includeDeleted q) in
    let filteredNotes := filterNotes includeDeleted (q_search q) notes in
    let pageNum := parseInt page_ in
    let limitNum := parseInt limit_ in
    let startIndex := num_mul (num_sub pageNum (numOfN 1)) limitNum in
    let endIndex := num_add startIndex limitNum in
    let paginatedNotes := slice filteredNotes startIndex endIndex in
    ret (json (NotesPage paginatedNotes
                 (mkPagination pageNum limitNum
                    (numOfNat (length filteredNotes))
                    (num_ceil_div (numOfNat (length filteredNotes))
                       limitNum))))).

(** [GET /notes/:id]. *)
Definition getNote (noteId : jsstring) : file -> response * file :=
  handler (
    await notes <- readNotesFile;
    match find noteId notes with
    | None => ret notFound
    | Some note =>
        if deleted note then ret notFound
        else ret (json (OneNote note))
    end).

(** [POST /notes], from the point where [title] and [content] have
    been taken out of the parsed body object.  [uuid] is what
    [uuidv4()] returns and [now] what [new Date().toISOString()]
    returns during the call.  (A request whose body is not JSON does
    not reach the handler: [express.json()] hands it to the error
    middleware.  A request without a body reaches it, depending on the
    version of Express, with an empty object, which is both fields
    absent here, or with no object at all, where taking [title] out of
    [req.body] throws.  The requests that are answered without
    [title] and [content] being read are not modelled.) *)
Definition createNote (uuid now : jsstring) (title content : jsval)
    : file -> response * file :=
  handler (
    let validationErrors := validateNote title content in
    if (0 <? length validationErrors)%nat
    then ret (validationFailed validationErrors)
    else
      await t <- trimVal title;
      await c <- trimVal content;
      let newNote := mkNote uuid t c now false in
      await notes <- readNotesFile;
      let notes := notes ++ [newNote] in
      await _ <- writeNotesFile notes;
      ret (status_json 201 (OneNote newNote))).

(** [PUT /notes/:id], from the same point as [POST /notes]. *)
Definition updateNote (noteId : jsstring) (title content : jsval)
    : file -> response * file :=
  handler (
    let validationErrors := validateNote title content in
    if (0 <? length validationErrors)%nat
    then ret (validationFailed validationErrors)
    else
      await notes <- readNotesFile;
      match findIndex noteId notes with
      | None => ret notFound
      | Some noteIndex =>
          match notes !! noteIndex with
          | None => throw TypeError
          | Some old =>
              if deleted old then ret notFound
              else
                await t <- trimVal title;
                await c <- trimVal content;
                let updated := withTitleContent old t c in
                let notes := <[noteIndex := updated]> notes in
                await _ <- writeNotesFile notes;
                ret (json (OneNote updated))
          end
      end).

(** [DELETE /notes/:id]. *)
Definition deleteNote (noteId : jsstring) : file -> response * file :=
  handler (
    await notes <- readNotesFile;
    match findIndex noteId notes with
    | None => ret notFound
    | Some noteIndex =>
        match notes !! noteIndex with
        | None => throw TypeError
        | Some old =>
            if deleted old then ret notFound
            else
              let notes := <[noteIndex := markDeleted old]> notes in
              await _ <- writeNotesFile notes;
              ret (json (Message (js "Note deleted successfully")))
        end
    end).

End Routes.

(* ===================================================================== *)
(** ** The listing pipeline as the specification words it *)
(* ===================================================================== *)

(** Step 2: drop the records with [deleted = true], unless
    [includeDeleted] is the string ["true"]. *)
Definition visibleNotes (includeDeleted : option jsstring)
    (notes : list Note) : list Note :=
  if decide (includeDeleted = Some (js "true")) then notes
  else filter (fun n => deleted n = false) notes.

Section Search.

Variable toLowerCase : jsstring -> jsstring.

(** Step 3: the lower-cased title or the lower-cased content contains
    the lower-cased term. *)
Definition matchesSearch (term : jsstring) (n : Note) : Prop :=
  substring_of (toLowerCase term) (toLowerCase (title n)) \/
  substring_of (toLowerCase term) (toLowerCase (content n)).

#[global] Instance matchesSearch_dec term n : Decision (matchesSearch term n).
Proof. unfold matchesSearch. apply _. Defined.

(** An absent or empty [search] filters nothing. *)
Definition searchNotes (search : option jsstring)
    (notes : list Note) : list Note :=
  match search with
  | None => notes
  | Some term =>
      if decide (term = []) then notes
      else filter (matchesSearch term) notes
  end.

End Search.

(* ===================================================================== *)
(** ** A collection and requests for the examples *)
(* ===================================================================== *)

Definition demoNote (i : N) (t c : string) (d : bool) : Note :=
  mkNote (decimal i) (js t) (js c) (js "2025-06-27T08:15:30.000Z") d.

Definition sevenNotes : list Note :=
  [ demoNote 1 "Project Plan" "Define MVP and deadlines" false;
    demoNote 2 "Groceries" "milk, eggs" false;
    demoNote 3 "Old draft" "superseded" true;
    demoNote 4 "Meeting" "project sync on Monday" false;
    demoNote 5 "Ideas" "write more tests" false;
    demoNote 6 "Travel" "book the train" false;
    demoNote 7 "Reading" "finish chapter 3" false;
    demoNote 8 "Chores" "laundry" false ].

Definition elevenNotes : list Note :=
  (fun i => demoNote i "Note" "text" false) <$>
  [1; 2; 3; 4; 5; 6; 7; 8; 9; 10; 11].

Definition pageQuery (p l : N) : query :=
  mkQuery (Some (decimal p)) (Some (decimal l)) None None.

Definition includeDeletedQuery : query :=
  mkQuery None None None (Some (js "true")).

Definition paddedTitle : jsstring := js "a" ++ replicate 100 32.

Definition planTitle : jsval := VStr (js "  Project Plan ").
Definition planContent : jsval := VStr (js "Define MVP and deadlines").

Definition emptyBody : jsval * jsval := (VUndefined, VStr (js "   ")).

(* ===================================================================== *)
(** ** Records as the routes store them *)
(* ===================================================================== *)

(** What [POST /notes] and [PUT /notes/:id] store after validation: a
    title and a content that are not empty and carry no white space at
    either end, the title of at most 100 code units. *)
Definition wellFormed (n : Note) : Prop :=
  title n <> [] /\ (length (title n) <= 100)%nat /\ trim (title n) = title n /\
  content n <> [] /\ trim (content n) = content n.

(** A body field that [validateNote] reports as required: anything but a
    string with something left after trimming. *)
Definition missing (v : jsval) : Prop :=
  forall s, v = VStr s -> trim s = [].

(** The items and the pagination of a [GET /notes] answer. *)
Definition listed (r : response) : option (list Note * Pagination) :=
  match payload r with
  | NotesPage items pg => Some (items, pg)
  | _ => None
  end.

(* ===================================================================== *)
(** ** The application: requests served one after the other *)
(* ===================================================================== *)

(** A request that one of the five routes matches, with what the
    handler reads from it (and, for [POST], what [uuidv4()] and the
    clock return while it runs). *)
Inductive request : Type :=
  | GetNotes (q : query)
  | GetNoteById (noteId : jsstring)
  | PostNote (uuid now : jsstring) (title content : jsval)
  | PutNote (noteId : jsstring) (title content : jsval)
  | DeleteNoteById (noteId : jsstring).

Definition serve (toLowerCase : jsstring -> jsstring) (req : request)
    : file -> response * file :=
  match req with
  | GetNotes q => listNotes toLowerCase q
  | GetNoteById noteId => getNote noteId
  | PostNote uuid now title content => createNote uuid now title content
  | PutNote noteId title content => updateNote noteId title content
  | DeleteNoteById noteId => deleteNote noteId
  end.

(** The notes file after a sequence of requests, each served to
    completion before the next. *)
Definition run (toLowerCase : jsstring -> jsstring) (reqs : list request)
    (f : file) : file :=
  fold_left (fun f req => (serve toLowerCase req f).2) reqs f.

(** The collection after one request to a readable file: as it was, or
    with one record appended by a successful [POST], or with the visible
    record that the id finds replaced by a successful [PUT] or
    [DELETE]. *)
Inductive served (notes : list Note) : request -> list Note -> Prop :=
  | served_same req : served notes req notes
  | served_post uuid now t c :
      validateNote (VStr t) (VStr c) = [] ->
      served notes (PostNote uuid now (VStr t) (VStr c))
        (notes ++ [mkNote uuid (trim t) (trim c) now false])
  | served_put noteId k n t c :
      validateNote (VStr t) (VStr c) = [] ->
      list_find (fun m => id m = noteId) notes = Some (k, n) ->
      deleted n = false ->
      served notes (PutNote noteId (VStr t) (VStr c))
        (<[k := withTitleContent n (trim t) (trim c)]> notes)
  | served_delete noteId k n :
      list_find (fun m => id m = noteId) notes = Some (k, n) ->
      deleted n = false ->
      served notes (DeleteNoteById noteId) (<[k := markDeleted n]> notes).

(** What a request keeps of each record: its position, its id and its
    [createdAt], and all of it once it is deleted. *)
Definition kept (a b : list Note) : Prop :=
  (length a <= length b)%nat /\
  forall k n, a !! k = Some n ->
    exists n', b !! k = Some n' /\
      id n' = id n /\ createdAt n' = createdAt n /\
      (deleted n = true -> n' = n).

(** The ids [uuidv4()] returns during [reqs] are fresh: none is the id
    of a record that is in the collection when it is returned. *)
Fixpoint freshIds (toLowerCase : jsstring -> jsstring)
    (reqs : list request) (f : file) : Prop :=
  match reqs with
  | [] => True
  | req :: rest =>
      match req, collection f with
      | PostNote uuid _ _ _, Some notes => uuid ∉ id <$> notes
      | _, _ => True
      end /\
      freshIds toLowerCase rest (serve toLowerCase req f).2
  end.

(** The items of page [p] at [l] per page. *)
Definition pageItems (toLowerCase : jsstring -> jsstring)
    (notes : list Note) (search includeDeleted : option jsstring)
    (l p : N) : list Note :=
  match listed (listNotes toLowerCase
                  (mkQuery (Some (decimal p)) (Some (decimal l))
                     search includeDeleted) (Stored notes)).1 with
  | Some (items, _) => items
  | None => []
  end.

(** The [total] that [GET /notes] reports, when it answers with a
    page. *)
Definition totalOf (toLowerCase : jsstring -> jsstring) (q : query)
    (f : file) : option num :=
  match listed (listNotes toLowerCase q f).1 with
  | Some (_, pg) => Some (total pg)
  | None => None
  end.

(** A first run: two notes created, one retitled, one deleted, and a
    few requests that fail in between. *)
Definition demoRequests : list request :=
  [ PostNote (decimal 1) (js "2025-06-27T08:15:30.000Z") planTitle planContent;
    PostNote (decimal 2) (js "2025-06-27T08:16:00.000Z")
      (VStr (js "Groceries")) (VStr (js " milk, eggs "));
    PutNote (decimal 1) (VStr (js " Plan B ")) planContent;
    PostNote (decimal 3) (js "2025-06-27T08:17:00.000Z") VNull planContent;
    DeleteNoteById (decimal 2);
    PutNote (decimal 2) planTitle planContent;
    GetNotes (pageQuery 1 10) ].

(* ##################################################################### *)
(** * Part II: properties *)
(* ##################################################################### *)

(* ===================================================================== *)
(** ** The model on concrete inputs *)
(* ===================================================================== *)

Example decimal_ex : decimal 0 = js "0" /\ decimal 1207 = js "1207".
Proof. split; reflexivity. Qed.

Example parseInt_ex :
  parseIntString (js " 42px") = Fin false 42 /\
  parseIntString (js "0x1F") = Fin false 31 /\
  parseIntString (js "-0") = Fin true 0 /\
  parseIntString (js "abc") = NaN /\
  parseIntString [] = NaN.
Proof. repeat split; reflexivity. Qed.

Example trim_ex : trim (js "  a b  ") = js "a b" /\ trim (js "   ") = [].
Proof. split; reflexivity. Qed.

(** Rounding at 2^53 + 1 (a tie, to the even significand), at 10^23,
    and at the two integers around the overflow threshold. *)
Example toDouble_ex :
  parseIntString (js "9007199254740993") = Fin false 9007199254740992 /\
  toDouble false (2 ^ 53 + 3) = Fin false (2 ^ 53 + 4) /\
  toDouble false (10 ^ 23) = Fin false 99999999999999991611392 /\
  toDouble false (2 ^ 1024 - 2 ^ 970 - 1) =
    Fin false ((2 ^ 53 - 1) * 2 ^ 971) /\
  toDouble false (2 ^ 1024 - 2 ^ 970) = Inf false.
Proof. split; [|split; [|split; [|split]]]; vm_compute; reflexivity. Qed.

(* ===================================================================== *)
(** ** Facts about strings *)
(* ===================================================================== *)

Lemma trimStart_length (s : jsstring) :
  (length (trimStart s) <= length s)%nat.
Proof.
  induction s as [|c s IH]; simpl; [lia|].
  destruct (isWhiteSpace c); simpl; lia.
Qed.

Lemma trim_length (s : jsstring) : (length (trim s) <= length s)%nat.
Proof.
  unfold trim, trimEnd. rewrite length_rev.
  etransitivity; [apply trimStart_length|].
  rewrite length_rev. apply trimStart_length.
Qed.

(* ===================================================================== *)
(** ** Facts about numbers *)
(* ===================================================================== *)

Lemma isDigit_cases (c : N) :
  isDigit c ->
  c = 48 \/ c = 49 \/ c = 50 \/ c = 51 \/ c = 52 \/
  c = 53 \/ c = 54 \/ c = 55 \/ c = 56 \/ c = 57.
Proof. unfold isDigit. lia. Qed.

Ltac digit_cases H :=
  apply isDigit_cases in H;
  repeat (destruct H as [-> | H]); [..| subst].

Lemma decimalFuel_S (fuel : nat) (n : N) (acc : jsstring) :
  decimalFuel (S fuel) n acc =
  if n / 10 =? 0 then (48 + n mod 10) :: acc
  else decimalFuel fuel (n / 10) ((48 + n mod 10) :: acc).
Proof. reflexivity. Qed.

Lemma decimalFuel_app (fuel : nat) (n : N) (acc : jsstring) :
  decimalFuel fuel n acc = decimalFuel fuel n [] ++ acc.
Proof.
  revert n acc. induction fuel as [|fuel IH]; intros n acc; simpl; [done|].
  destruct (n / 10 =? 0); [done|].
  rewrite IH, (IH _ [_]), <- app_assoc. done.
Qed.

Lemma decimalFuel_digits (fuel : nat) (n : N) (acc : jsstring) :
  Forall isDigit acc -> Forall isDigit (decimalFuel fuel n acc).
Proof.
  revert n acc. induction fuel as [|fuel IH]; intros n acc Hacc; simpl; [done|].
  assert (Forall isDigit ((48 + n mod 10) :: acc)).
  { constructor; [|done]. unfold isDigit.
    pose proof (N.mod_upper_bound n 10 ltac:(lia)) as Hr.
    revert Hr. generalize (n mod 10). lia. }
  destruct (n / 10 =? 0); auto.
Qed.

Lemma decimalFuel_nonempty (fuel : nat) (n : N) :
  decimalFuel (S fuel) n [] <> [].
Proof.
  simpl. destruct (n / 10 =? 0); [done|].
  rewrite decimalFuel_app. by destruct (decimalFuel fuel (n / 10) []).
Qed.

Lemma digitsValue_snoc (R : N) (ds : list N) (d : N) :
  digitsValue R (ds ++ [d]) = digitsValue R ds * R + d.
Proof. unfold digitsValue. by rewrite fold_left_app. Qed.

Lemma decimalFuel_value (fuel : nat) (n : N) :
  n < 2 ^ N.of_nat fuel ->
  digitsValue 10 (digitsOf (decimalFuel (S fuel) n [])) = n.
Proof.
  revert n. induction fuel as [|fuel IH]; intros n Hn.
  - assert (n = 0) as -> by (simpl in Hn; lia). reflexivity.
  - rewrite decimalFuel_S. destruct (N.eqb_spec (n / 10) 0) as [Hq|Hq].
    + unfold digitsOf, digitsValue. simpl.
      pose proof (N.div_mod n 10 ltac:(lia)) as Hn'. rewrite Hq in Hn'.
      revert Hn'. generalize (n mod 10). lia.
    + rewrite decimalFuel_app. unfold digitsOf. rewrite fmap_app.
      change ((fun c => c - 48) <$> [48 + n mod 10])
        with [48 + n mod 10 - 48].
      rewrite digitsValue_snoc.
      change (digitsValue 10 ((fun c => c - 48) <$> ?s))
        with (digitsValue 10 (digitsOf s)).
      rewrite IH.
      * pose proof (N.div_mod n 10 ltac:(lia)) as Hn'.
        revert Hn'. generalize (n mod 10), (n / 10). lia.
      * rewrite Nat2N.inj_succ, N.pow_succ_r' in Hn.
        apply N.Div0.div_lt_upper_bound. lia.
Qed.

Lemma decimal_digits (n : N) : Forall isDigit (decimal n).
Proof. by apply decimalFuel_digits. Qed.

Lemma decimal_nonempty (n : N) : decimal n <> [].
Proof. apply decimalFuel_nonempty. Qed.

Lemma decimal_value (n : N) : digitsValue 10 (digitsOf (decimal n)) = n.
Proof.
  apply decimalFuel_value.
  rewrite N2Nat.id. apply N.size_gt.
Qed.

Lemma isDigit_not_whiteSpace (c : N) : isDigit c -> isWhiteSpace c = false.
Proof. intros H. digit_cases H; reflexivity. Qed.

Lemma digitValue_digit (c : N) : isDigit c -> digitValue c = Some (c - 48).
Proof. intros H. digit_cases H; reflexivity. Qed.

Lemma digitsPrefix_digits (s : jsstring) :
  Forall isDigit s -> digitsPrefix 10 s = digitsOf s.
Proof.
  induction 1 as [|c s Hc _ IH]; [done|].
  cbn [digitsPrefix]. rewrite (digitValue_digit c Hc), IH.
  unfold isDigit in Hc.
  destruct (N.ltb_spec (c - 48) 10); [done | lia].
Qed.

(** *** Rounding to a double *)

Arguments toDouble : simpl never.

Lemma toDouble_exact (neg : bool) (m : N) :
  m < 2 ^ 53 -> toDouble neg m = Fin neg m.
Proof.
  intros Hm. unfold toDouble. by destruct (N.ltb_spec m (2 ^ 53)); [|lia].
Qed.

(** Rounding does not take an integer from 2^53 on below 2^53. *)
Lemma toDouble_large (neg : bool) (m : N) :
  2 ^ 53 <= m ->
  toDouble neg m = Inf neg \/
  exists m', toDouble neg m = Fin neg m' /\ 2 ^ 53 <= m'.
Proof.
  intros Hm. unfold toDouble.
  destruct (N.ltb_spec m (2 ^ 53)) as [|_]; [lia|]. cbv zeta.
  set (e := N.log2 m - 52). set (q := m / 2 ^ e).
  match goal with
  | |- context [if ?b then q + 1 else q] =>
      set (q' := if b then q + 1 else q)
  end.
  destruct (2 ^ 1024 <=? q' * 2 ^ e); [by left|]. right.
  eexists. split; [reflexivity|].
  assert (53 <= N.log2 m) as Hlog by (apply N.log2_le_pow2; lia).
  assert (2 ^ 52 <= q) as Hq.
  { apply N.div_le_lower_bound; [apply N.pow_nonzero; lia|].
    rewrite <- N.pow_add_r.
    replace (e + 52) with (N.log2 m) by (unfold e; lia).
    apply N.log2_spec. lia. }
  assert (q <= q') as Hq'.
  { unfold q'. match goal with |- context [if ?b then _ else _] =>
      destruct b end; lia. }
  assert (2 ^ 1 <= 2 ^ e) as He
    by (apply N.pow_le_mono_r; [lia | unfold e; lia]).
  change (2 ^ 53) with (2 ^ 52 * 2 ^ 1). apply N.mul_le_mono; lia.
Qed.

(** [parseInt] reads a string of decimal digits as the double nearest to
    the number it writes. *)
Lemma parseIntString_digits (s : jsstring) :
  s <> [] -> Forall isDigit s ->
  parseIntString s = toDouble false (digitsValue 10 (digitsOf s)).
Proof.
  intros Hne Hs. destruct s as [|c s]; [done|].
  pose proof (Forall_inv Hs) as Hc.
  unfold parseIntString. cbn [trimStart].
  rewrite (isDigit_not_whiteSpace c Hc).
  assert ((c =? 45) = false /\ (c =? 43) = false) as [-> ->]
    by (unfold isDigit in Hc; split; apply N.eqb_neq; lia).
  assert (match c :: s with
          | c0 :: x :: r =>
              if (c0 =? 48) && ((x =? 120) || (x =? 88))
              then (16, r) else (10, c :: s)
          | _ => (10, c :: s)
          end = (10, c :: s)) as ->.
  { destruct s as [|x r]; [done|].
    pose proof (Forall_inv (Forall_inv_tail Hs)) as Hx. unfold isDigit in Hx.
    assert ((x =? 120) = false /\ (x =? 88) = false) as [-> ->]
      by (split; apply N.eqb_neq; lia).
    by rewrite andb_false_r. }
  rewrite (digitsPrefix_digits _ Hs). reflexivity.
Qed.

Lemma parseInt_decimal (n : N) :
  parseInt (QStr (decimal n)) = toDouble false n.
Proof.
  unfold parseInt.
  rewrite parseIntString_digits
    by (apply decimal_nonempty || apply decimal_digits).
  by rewrite decimal_value.
Qed.

(** Below 2^53 a decimal numeral is read back exactly. *)
Lemma parseInt_small (n : N) :
  n < 2 ^ 53 -> parseInt (QStr (decimal n)) = numOfN n.
Proof. intros Hn. by rewrite parseInt_decimal, toDouble_exact. Qed.

(** The destructuring defaults [page = 1] and [limit = 10] are numbers;
    [parseInt] prints and reads them back. *)
Lemma parseInt_default_page : parseInt (QNum (numOfN 1)) = numOfN 1.
Proof. reflexivity. Qed.

Lemma parseInt_default_limit : parseInt (QNum (numOfN 10)) = numOfN 10.
Proof. reflexivity. Qed.

Lemma num_sub_one (p : N) :
  0 < p -> p < 2 ^ 53 ->
  num_sub (numOfN p) (numOfN 1) = numOfN (p - 1).
Proof.
  intros Hp Hp'. unfold num_sub, num_add, numOfN, num_neg, num_to_Z.
  simpl negb. cbv iota.
  destruct (Z.eqb_spec (Z.of_N p + - Z.of_N 1) 0) as [Hz|Hz].
  - simpl. f_equal. lia.
  - destruct (Z.ltb_spec (Z.of_N p + - Z.of_N 1) 0); [lia|].
    rewrite toDouble_exact by lia. f_equal. lia.
Qed.

Lemma num_mul_nonneg (a b : N) :
  num_mul (numOfN a) (numOfN b) = toDouble false (a * b).
Proof. reflexivity. Qed.

Lemma num_add_nonneg (a b : N) :
  num_add (numOfN a) (numOfN b) = toDouble false (a + b).
Proof.
  unfold num_add, numOfN, num_to_Z.
  destruct (Z.eqb_spec (Z.of_N a + Z.of_N b) 0) as [Hz|Hz].
  - replace (a + b) with 0 by lia. reflexivity.
  - destruct (Z.ltb_spec (Z.of_N a + Z.of_N b) 0); [lia|].
    f_equal. lia.
Qed.

(** The start of the window of page [p] at [l] per page, as the handler
    computes it. *)
Lemma startIndex_positive (p l : N) :
  0 < p -> p < 2 ^ 53 ->
  num_mul (num_sub (numOfN p) (numOfN 1)) (numOfN l) =
  toDouble false ((p - 1) * l).
Proof. intros Hp Hp'. by rewrite num_sub_one, num_mul_nonneg. Qed.

Lemma num_ceil_div_positive (n l : N) :
  0 < l -> num_ceil_div (numOfN n) (numOfN l) = numOfN ((n + l - 1) / l).
Proof.
  intros Hl. unfold num_ceil_div, numOfN.
  destruct (N.eqb_spec l 0); [lia | done].
Qed.

(** [(n + l - 1) / l] is the ceiling of [n / l]: the least [k] with
    [n <= k * l]. *)
Lemma ceil_div_bounds (n l : N) :
  0 < l -> n <= (n + l - 1) / l * l < n + l.
Proof.
  intros Hl.
  pose proof (N.div_mod (n + l - 1) l ltac:(lia)) as Hdm.
  pose proof (N.mod_upper_bound (n + l - 1) l ltac:(lia)) as Hr.
  revert Hdm Hr. generalize ((n + l - 1) mod l), ((n + l - 1) / l).
  intros r k Hdm Hr. nia.
Qed.

(** *** Slicing *)

Lemma sliceIndex_nonneg (len : nat) (m : N) :
  sliceIndex len (Fin false m) = (N.to_nat m `min` len)%nat.
Proof. unfold sliceIndex. lia. Qed.

Lemma window_clamped {A} (xs : list A) (a l : nat) :
  take ((a + l) `min` length xs - a `min` length xs)
    (drop (a `min` length xs) xs) =
  take l (drop a xs).
Proof.
  destruct (Nat.le_gt_cases a (length xs)) as [Ha|Ha].
  - rewrite (Nat.min_l a) by done.
    destruct (Nat.le_gt_cases (a + l) (length xs)) as [Hb|Hb].
    + rewrite Nat.min_l by done. f_equal. lia.
    + rewrite Nat.min_r by lia.
      rewrite !take_ge; [done | rewrite length_drop; lia ..].
  - rewrite !Nat.min_r by lia. rewrite !drop_ge by lia. by rewrite !take_nil.
Qed.

(** [slice] on a window given by non-negative integers. *)
Lemma slice_window {A} (xs : list A) (a l : N) :
  slice xs (numOfN a) (numOfN (a + l)) =
  take (N.to_nat l) (drop (N.to_nat a) xs).
Proof.
  unfold slice, numOfN. rewrite !sliceIndex_nonneg, N2Nat.inj_add.
  apply window_clamped.
Qed.

(** On an array of fewer than 2^53 elements, an index that had to be
    rounded is past the end before and after the rounding. *)
Lemma sliceIndex_toDouble (len : nat) (m : N) :
  N.of_nat len < 2 ^ 53 ->
  sliceIndex len (toDouble false m) = (N.to_nat m `min` len)%nat.
Proof.
  intros Hlen. destruct (N.lt_ge_cases m (2 ^ 53)) as [Hm|Hm].
  - by rewrite toDouble_exact, sliceIndex_nonneg.
  - destruct (toDouble_large false m Hm) as [->|(m' & -> & Hm')].
    + simpl. lia.
    + rewrite sliceIndex_nonneg. lia.
Qed.

Lemma sliceIndex_toDouble_add (len : nat) (a l : N) :
  N.of_nat len < 2 ^ 53 -> 0 < l ->
  sliceIndex len (num_add (toDouble false a) (numOfN l)) =
  (N.to_nat (a + l) `min` len)%nat.
Proof.
  intros Hlen Hl. destruct (N.lt_ge_cases a (2 ^ 53)) as [Ha|Ha].
  - rewrite toDouble_exact by done. fold (numOfN a).
    by rewrite num_add_nonneg, sliceIndex_toDouble.
  - destruct (toDouble_large false a Ha) as [->|(m' & -> & Hm')].
    + simpl. lia.
    + fold (numOfN m'). rewrite num_add_nonneg, sliceIndex_toDouble by done.
      lia.
Qed.

(** The window of a page, as the handler computes its ends, on an array
    of fewer than 2^53 elements. *)
Lemma slice_page {A} (xs : list A) (a l : N) :
  N.of_nat (length xs) < 2 ^ 53 -> 0 < l ->
  slice xs (toDouble false a) (num_add (toDouble false a) (numOfN l)) =
  take (N.to_nat l) (drop (N.to_nat a) xs).
Proof.
  intros Hlen Hl. unfold slice.
  rewrite sliceIndex_toDouble, sliceIndex_toDouble_add by done.
  rewrite N2Nat.inj_add. apply window_clamped.
Qed.

Lemma length_window {A} (xs : list A) (a l : nat) :
  length (take l (drop a xs)) = (l `min` (length xs - a))%nat.
Proof. by rewrite length_take, length_drop. Qed.

(* ===================================================================== *)
(** ** Running the handlers *)
(* ===================================================================== *)

Lemma readNotesFile_Stored (notes : list Note) :
  readNotesFile (Stored notes) = (Return notes, Stored notes).
Proof. reflexivity. Qed.

Lemma readNotesFile_Missing : readNotesFile Missing = (Return [], Stored []).
Proof. reflexivity. Qed.

Lemma readNotesFile_Malformed :
  readNotesFile Malformed = (Throw SyntaxError, Malformed).
Proof. reflexivity. Qed.

(** Reading leaves a file that exists as it is. *)
Lemma readNotesFile_frame (f : file) :
  f <> Missing -> snd (readNotesFile f) = f.
Proof. by destruct f. Qed.

Section RunRoutes.

Variable toLowerCase : jsstring -> jsstring.

(** [GET /notes] on a stored collection, step by step. *)
Lemma listNotes_Stored (q : query) (notes : list Note) :
  listNotes toLowerCase q (Stored notes) =
  let filteredNotes :=
    filterNotes toLowerCase (default (js "false") (q_includeDeleted q))
      (q_search q) notes in
  let pageNum := parseInt (orDefault (q_page q) (QNum (numOfN 1))) in
  let limitNum := parseInt (orDefault (q_limit q) (QNum (numOfN 10))) in
  let startIndex := num_mul (num_sub pageNum (numOfN 1)) limitNum in
  (json (NotesPage
           (slice filteredNotes startIndex (num_add startIndex limitNum))
           (mkPagination pageNum limitNum
              (numOfNat (length filteredNotes))
              (num_ceil_div (numOfNat (length filteredNotes)) limitNum))),
   Stored notes).
Proof. reflexivity. Qed.

Lemma filterNotes_length (includeDeleted : jsstring)
    (search : option jsstring) (notes : list Note) :
  (length (filterNotes toLowerCase includeDeleted search notes) <=
   length notes)%nat.
Proof.
  unfold filterNotes.
  assert (forall f (xs : list Note),
            (length (List.filter f xs) <= length xs)%nat) as Hle
    by (intros; apply filter_length_le).
  destruct (bool_decide _), search as [[|c s]|]; try done;
    repeat (etransitivity; [apply Hle|]); done.
Qed.

(** The same with [page] and [limit] given as positive decimals, where
    the window of the page ends below 2^53 and nothing is rounded. *)
Lemma listNotes_page_exact (notes : list Note) (p l : N)
    (search includeDeleted : option jsstring) :
  0 < p -> 0 < l -> (p - 1) * l + l < 2 ^ 53 ->
  listNotes toLowerCase
    (mkQuery (Some (decimal p)) (Some (decimal l)) search includeDeleted)
    (Stored notes) =
  let filteredNotes :=
    filterNotes toLowerCase (default (js "false") includeDeleted)
      search notes in
  (json (NotesPage
           (take (N.to_nat l) (drop (N.to_nat ((p - 1) * l)) filteredNotes))
           (mkPagination (numOfN p) (numOfN l)
              (numOfNat (length filteredNotes))
              (numOfN ((N.of_nat (length filteredNotes) + l - 1) / l)))),
   Stored notes).
Proof.
  intros Hp Hl Hend.
  assert (p < 2 ^ 53 /\ l < 2 ^ 53) as [Hp' Hl'] by nia.
  rewrite listNotes_Stored.
  cbn [q_page q_limit q_search q_includeDeleted orDefault].
  rewrite !parseInt_small, startIndex_positive by done.
  rewrite (toDouble_exact false ((p - 1) * l)) by lia.
  fold (numOfN ((p - 1) * l)).
  rewrite num_add_nonneg, toDouble_exact by done.
  cbv zeta. fold (numOfN ((p - 1) * l + l)). rewrite slice_window.
  unfold numOfNat at 2.
  fold (numOfN (N.of_nat (length (filterNotes toLowerCase
                                    (default (js "false") includeDeleted)
                                    search notes)))).
  by rewrite num_ceil_div_positive.
Qed.

(** The same for every positive [page] and [limit] below 2^53, on a
    collection of fewer than 2^32 records (the most a JavaScript array
    holds): where the ends of the window are rounded, they are past the
    end of the array before and after the rounding. *)
Lemma listNotes_page (notes : list Note) (p l : N)
    (search includeDeleted : option jsstring) :
  0 < p -> p < 2 ^ 53 -> 0 < l -> l < 2 ^ 53 ->
  N.of_nat (length notes) < 2 ^ 32 ->
  listNotes toLowerCase
    (mkQuery (Some (decimal p)) (Some (decimal l)) search includeDeleted)
    (Stored notes) =
  let filteredNotes :=
    filterNotes toLowerCase (default (js "false") includeDeleted)
      search notes in
  (json (NotesPage
           (take (N.to_nat l) (drop (N.to_nat ((p - 1) * l)) filteredNotes))
           (mkPagination (numOfN p) (numOfN l)
              (numOfNat (length filteredNotes))
              (numOfN ((N.of_nat (length filteredNotes) + l - 1) / l)))),
   Stored notes).
Proof.
  intros Hp Hp' Hl Hl' Hlen. rewrite listNotes_Stored.
  cbn [q_page q_limit q_search q_includeDeleted orDefault].
  rewrite !parseInt_small, startIndex_positive by done.
  cbv zeta.
  pose proof (filterNotes_length (default (js "false") includeDeleted)
                search notes) as Hle.
  rewrite slice_page by (done || lia).
  unfold numOfNat at 2.
  fold (numOfN (N.of_nat (length (filterNotes toLowerCase
                                    (default (js "false") includeDeleted)
                                    search notes)))).
  by rewrite num_ceil_div_positive.
Qed.

End RunRoutes.

Lemma filter_bool_Prop {A} (f : A -> bool) (P : A -> Prop)
    `{!forall x, Decision (P x)} (l : list A) :
  (forall x, f x = true <-> P x) -> List.filter f l = filter P l.
Proof.
  intros Hf. induction l as [|a l IH]; [done|].
  cbn [List.filter]. rewrite filter_cons, IH.
  destruct (f a) eqn:Ea, (decide (P a)) as [Ha|Ha]; try done.
  - apply Hf in Ea. done.
  - apply Hf in Ha. congruence.
Qed.

(** The two filters of the handler are steps 2 and 3, in that order. *)
Lemma filterNotes_spec (toLowerCase : jsstring -> jsstring)
    (includeDeleted search : option jsstring) (notes : list Note) :
  filterNotes toLowerCase (default (js "false") includeDeleted) search notes =
  searchNotes toLowerCase search (visibleNotes includeDeleted notes).
Proof.
  assert ((if bool_decide (default (js "false") includeDeleted <> js "true")
           then List.filter (fun note => negb (deleted note)) notes
           else notes) = visibleNotes includeDeleted notes) as Hvis.
  { unfold visibleNotes.
    assert (forall l : list Note,
      List.filter (fun note => negb (deleted note)) l =
      filter (fun n => deleted n = false) l) as Hfilter.
    { intros l. apply filter_bool_Prop. intros x. by destruct (deleted x). }
    destruct includeDeleted as [s|]; simpl.
    - destruct (decide (s = js "true")) as [->|Hne].
      + rewrite bool_decide_false by (intros H; by apply H).
        by rewrite decide_True.
      + rewrite bool_decide_true by done.
        by rewrite decide_False by congruence.
    - done. }
  unfold filterNotes. rewrite Hvis.
  destruct search as [[|c s]|]; [done| |done].
  unfold searchNotes. rewrite decide_False by done.
  apply filter_bool_Prop. intros x.
  by rewrite orb_true_iff, !includes_spec.
Qed.

(* ===================================================================== *)
(** ** Listing: pagination *)
(* ===================================================================== *)

(** C1, as claimed for all positive integers, fails where the doubles
    end.  With [page=1] and a [limit] of 401 digits, [parseInt] gives
    infinity, the start of the window is [0 * Infinity], which is NaN,
    and the seven visible notes of the demo collection are answered with
    no items and [totalPages] 0, where the slice from 0 to the limit is
    all seven and the ceiling of [7 / limit] is 1.  And
    [page=9007199254740993], which is 2^53 + 1, comes back as
    9007199254740992. *)
Lemma listNotes_pagination_counterexample :
  let l := 10 ^ 400 in
  length (decimal l) = 401%nat /\
  listNotes lowerASCII
    (mkQuery (Some (decimal 1)) (Some (decimal l)) None None)
    (Stored sevenNotes) =
    (mkResponse 200
       (NotesPage []
          (mkPagination (numOfN 1) (Inf false) (numOfN 7) (numOfN 0))),
     Stored sevenNotes) /\
  length (visibleNotes None sevenNotes) = 7%nat /\
  (7 + l - 1) / l = 1 /\
  listNotes lowerASCII (pageQuery 9007199254740993 1) (Stored sevenNotes) =
    (mkResponse 200
       (NotesPage []
          (mkPagination (numOfN 9007199254740992) (numOfN 1) (numOfN 7)
             (numOfN 7))),
     Stored sevenNotes).
Proof.
  cbv zeta. split; [|split; [|split; [|split]]]; vm_compute; reflexivity.
Qed.

(** C1, amended.  On every stored collection (of fewer than 2^32
    records, the most a JavaScript array holds), for every [search] and
    [includeDeleted] and all positive integers [p] and [l] below 2^53
    sent as [page] and [limit], [GET /notes] answers 200 and leaves the
    file alone; the sequence it paginates is the collection with the
    deleted records dropped (unless [includeDeleted] is ["true"]) and
    then the search filter applied; [total] is its length, the items
    are its slice from [(p-1)*l] to [(p-1)*l + l], and [totalPages] is
    the ceiling of [total / l], that is the [k] with
    [total <= k*l < total + l], which is 0 when [total] is 0.  A page
    past the end has no items and the same metadata. *)
Theorem listNotes_pagination (toLowerCase : jsstring -> jsstring)
    (notes : list Note) (search includeDeleted : option jsstring) (p l : N) :
  0 < p < 2 ^ 53 -> 0 < l < 2 ^ 53 ->
  N.of_nat (length notes) < 2 ^ 32 ->
  let filtered :=
    searchNotes toLowerCase search (visibleNotes includeDeleted notes) in
  let count := N.of_nat (length filtered) in
  exists items pages,
    listNotes toLowerCase
      (mkQuery (Some (decimal p)) (Some (decimal l)) search includeDeleted)
      (Stored notes) =
    (mkResponse 200
       (NotesPage items
          (mkPagination (numOfN p) (numOfN l) (numOfN count) (numOfN pages))),
     Stored notes) /\
    items = take (N.to_nat l) (drop (N.to_nat ((p - 1) * l)) filtered) /\
    count <= pages * l < count + l /\
    (count = 0 -> pages = 0) /\
    N.of_nat (length items) = N.min l (count - (p - 1) * l) /\
    (count <= (p - 1) * l -> items = []).
Proof.
  intros [Hp Hp'] [Hl Hl'] Hlen filtered count.
  exists (take (N.to_nat l) (drop (N.to_nat ((p - 1) * l)) filtered)),
    ((count + l - 1) / l).
  pose proof (ceil_div_bounds count l Hl) as Hceil.
  split; [|split; [done|split; [done|split; [|split]]]].
  - rewrite listNotes_page by done. cbv zeta.
    rewrite filterNotes_spec. reflexivity.
  - intros H0. revert Hceil. rewrite H0.
    generalize ((0 + l - 1) / l). intros k Hk. nia.
  - rewrite length_window. fold count.
    generalize ((p - 1) * l). intros a. lia.
  - intros Hout. apply nil_length_inv. rewrite length_window. fold count.
    revert Hout. generalize ((p - 1) * l). intros a. lia.
Qed.

(** C1 at page 3 of the demo collection, three notes per page. *)
Lemma listNotes_pagination_witness :
  (0 < 3 < 2 ^ 53 /\ N.of_nat (length sevenNotes) < 2 ^ 32) /\
  exists items pages,
    listNotes lowerASCII (pageQuery 3 3) (Stored sevenNotes) =
    (mkResponse 200
       (NotesPage items
          (mkPagination (numOfN 3) (numOfN 3) (numOfN 7) (numOfN pages))),
     Stored sevenNotes) /\
    items = [demoNote 8 "Chores" "laundry" false] /\
    7 <= pages * 3 < 7 + 3.
Proof.
  split; [simpl; lia|].
  destruct (listNotes_pagination lowerASCII sevenNotes None None 3 3)
    as (items & pages & Hrun & Hitems & Hpages & _);
    [lia | lia | simpl; lia |].
  exists items, pages. split; [exact Hrun|].
  split; [exact Hitems | exact Hpages].
Defined.

(** The arithmetic of the specification's example: seven visible notes,
    three per page. *)
Lemma pagination_arithmetic (toLowerCase : jsstring -> jsstring)
    (notes : list Note) (p : N) :
  length (visibleNotes None notes) = 7%nat ->
  0 < p <= 4 ->
  exists items pg,
    listNotes toLowerCase (pageQuery p 3) (Stored notes) =
      (mkResponse 200 (NotesPage items pg), Stored notes) /\
    totalPages pg = numOfN 3 /\
    (p = 1 -> length items = 3%nat) /\
    (p = 3 -> length items = 1%nat) /\
    (p = 4 -> length items = 0%nat).
Proof.
  intros H7 Hp. unfold pageQuery. rewrite listNotes_page_exact by lia.
  cbv zeta. rewrite filterNotes_spec. cbn [searchNotes]. rewrite H7.
  eexists _, _. split; [reflexivity|]. cbn [totalPages].
  split; [reflexivity|].
  rewrite length_window, H7.
  repeat split; intros ->; reflexivity.
Qed.

(* ===================================================================== *)
(** ** Listing: search *)
(* ===================================================================== *)




(* ===================================================================== *)
(** ** Listing: [page] and [limit] that are absent or not numbers *)
(* ===================================================================== *)

(** Absent [page] and [limit] are page 1 and ten per page. *)
Lemma listNotes_absent_defaults (toLowerCase : jsstring -> jsstring)
    (notes : list Note) (search includeDeleted : option jsstring) :
  listNotes toLowerCase (mkQuery None None search includeDeleted)
    (Stored notes) =
  listNotes toLowerCase
    (mkQuery (Some (js "1")) (Some (js "10")) search includeDeleted)
    (Stored notes).
Proof. reflexivity. Qed.

(** A [page] in which [parseInt] finds no number: no items at all, and
    NaN for the page. *)
Lemma listNotes_page_NaN (toLowerCase : jsstring -> jsstring)
    (notes : list Note) (s : jsstring)
    (limit_ search includeDeleted : option jsstring) :
  parseIntString s = NaN ->
  exists pg,
    listNotes toLowerCase (mkQuery (Some s) limit_ search includeDeleted)
      (Stored notes) =
    (mkResponse 200 (NotesPage [] pg), Stored notes) /\ page pg = NaN.
Proof.
  intros Hs. rewrite listNotes_Stored. cbn [q_page orDefault parseInt].
  rewrite Hs. cbv zeta. eexists. split; reflexivity.
Qed.

(** A [limit] in which [parseInt] finds no number: no items, and NaN for
    the limit and for the number of pages. *)
Lemma listNotes_limit_NaN (toLowerCase : jsstring -> jsstring)
    (notes : list Note) (s : jsstring)
    (page_ search includeDeleted : option jsstring) :
  parseIntString s = NaN ->
  exists pg,
    listNotes toLowerCase (mkQuery page_ (Some s) search includeDeleted)
      (Stored notes) =
    (mkResponse 200 (NotesPage [] pg), Stored notes) /\
    limit pg = NaN /\ totalPages pg = NaN.
Proof.
  intros Hs. rewrite listNotes_Stored. cbn [q_limit orDefault parseInt].
  rewrite Hs. cbv zeta.
  assert (forall x, num_mul x NaN = NaN) as -> by (by intros []).
  eexists. split; [reflexivity|]. split; reflexivity.
Qed.

(** C3.  [GET /notes?page=abc] and [GET /notes?limit=abc] on the demo
    collection: where the defaults give the seven visible notes on one
    page, these give no items, with NaN as the page, or as the limit and
    the number of pages. *)
Theorem listNotes_non_numeric :
  let visible := visibleNotes None sevenNotes in
  listNotes lowerASCII (mkQuery None None None None) (Stored sevenNotes) =
    (mkResponse 200
       (NotesPage visible
          (mkPagination (numOfN 1) (numOfN 10) (numOfN 7) (numOfN 1))),
     Stored sevenNotes) /\
  listNotes lowerASCII (mkQuery (Some (js "abc")) None None None)
    (Stored sevenNotes) =
    (mkResponse 200
       (NotesPage []
          (mkPagination NaN (numOfN 10) (numOfN 7) (numOfN 1))),
     Stored sevenNotes) /\
  listNotes lowerASCII (mkQuery None (Some (js "abc")) None None)
    (Stored sevenNotes) =
    (mkResponse 200
       (NotesPage [] (mkPagination (numOfN 1) NaN (numOfN 7) NaN)),
     Stored sevenNotes).
Proof. repeat split; vm_compute; reflexivity. Qed.

(* ===================================================================== *)
(** ** The validator *)
(* ===================================================================== *)

Lemma blank_VStr (s : jsstring) : blank (VStr s) = bool_decide (trim s = []).
Proof.
  unfold blank, truthy. rewrite negb_involutive.
  case_bool_decide as Hs; [|done]. by rewrite Hs.
Qed.

Lemma blank_not_string (v : jsval) :
  (forall s, v <> VStr s) -> blank v = true.
Proof.
  intros Hv. unfold blank. destruct (negb (truthy v)); [done|].
  destruct v; try done. by destruct (Hv s).
Qed.

(** [validateNote] on a string title, by cases. *)
Lemma validateNote_VStr (t : jsstring) (content : jsval) :
  validateNote (VStr t) content =
  (if decide (trim t = []) then [titleRequired]
   else if decide (100 < length t)%nat then [titleTooLong] else []) ++
  (if blank content then [contentRequired] else []).
Proof.
  unfold validateNote. rewrite blank_VStr.
  destruct (decide (trim t = [])) as [Ht|Ht].
  - rewrite bool_decide_true by done. by destruct (blank content).
  - rewrite bool_decide_false by done.
    destruct (Nat.ltb_spec 100 (length t)),
      (decide (100 < length t)%nat); try lia;
      by destruct (blank content).
Qed.

(** A pair passes validation only if both fields are strings that are
    not blank, the title of at most 100 code units. *)
Lemma validateNote_nil (title content : jsval) :
  validateNote title content = [] ->
  exists t c,
    title = VStr t /\ content = VStr c /\
    trim t <> [] /\ trim c <> [] /\ (length t <= 100)%nat.
Proof.
  intros Hv.
  destruct (blank title) eqn:Ht.
  { unfold validateNote in Hv. rewrite Ht in Hv.
    by destruct (blank content). }
  destruct (blank content) eqn:Hc.
  { unfold validateNote in Hv. rewrite Hc in Hv.
    by destruct (if blank title then _ else _). }
  destruct title as [| | | |t|];
    try (rewrite blank_not_string in Ht by done; done).
  destruct content as [| | | |c|];
    try (rewrite blank_not_string in Hc by done; done).
  rewrite blank_VStr in Ht, Hc.
  apply bool_decide_eq_false in Ht, Hc.
  exists t, c. repeat split; try done.
  rewrite validateNote_VStr in Hv.
  rewrite decide_False in Hv by done.
  case_decide; [done | lia].
Qed.

(** C2, as claimed, fails: a title of one letter and a hundred spaces
    has trimmed length 1 and is reported as too long. *)
Lemma titleTooLong_counterexample :
  length (trim paddedTitle) = 1%nat /\
  validateNote (VStr paddedTitle) (VStr (js "x")) = [titleTooLong] /\
  ~ (titleTooLong ∈ validateNote (VStr paddedTitle) (VStr (js "x")) <->
     (100 < length (trim paddedTitle))%nat).
Proof.
  assert (length (trim paddedTitle) = 1%nat) as Hlen by reflexivity.
  assert (validateNote (VStr paddedTitle) (VStr (js "x")) = [titleTooLong])
    as Hval by reflexivity.
  split; [done|]. split; [done|].
  rewrite Hval, Hlen. intros [H _].
  specialize (H ltac:(by apply list_elem_of_here)). lia.
Qed.

(** C2, amended.  For every title string (and whatever the content) the
    validator reports "title too long" exactly when the title is not
    empty after trimming and its length before trimming exceeds 100.
    So it does whenever the length after trimming exceeds 100; it also
    does for a title that is not empty after trimming, of trimmed
    length at most 100, whose length before trimming exceeds 100; and
    it never does for a title that is empty after trimming, however
    long, which is reported as "title required" instead. *)
Theorem titleTooLong_iff (t : jsstring) (content : jsval) :
  (titleTooLong ∈ validateNote (VStr t) content <->
   trim t <> [] /\ (100 < length t)%nat) /\
  ((100 < length (trim t))%nat ->
   titleTooLong ∈ validateNote (VStr t) content) /\
  (trim t <> [] -> (length (trim t) <= 100)%nat -> (100 < length t)%nat ->
   titleTooLong ∈ validateNote (VStr t) content) /\
  (trim t = [] ->
   (titleTooLong ∉ validateNote (VStr t) content) /\
   titleRequired ∈ validateNote (VStr t) content).
Proof.
  assert (titleTooLong ∈ validateNote (VStr t) content <->
          trim t <> [] /\ (100 < length t)%nat) as Hiff.
  { rewrite validateNote_VStr, elem_of_app.
    assert (titleTooLong ∉ (if blank content then [contentRequired] else []))
      as Hc.
    { destruct (blank content); [|apply not_elem_of_nil].
      intros H%list_elem_of_singleton. discriminate. }
    destruct (decide (trim t = [])) as [Ht|Ht];
      [|destruct (decide (100 < length t)%nat) as [Hl|Hl]]; split.
    - intros [E%list_elem_of_singleton | E]; [discriminate | done].
    - intros [? _]. done.
    - intros _. done.
    - intros _. left. apply list_elem_of_here.
    - intros [E%elem_of_nil | E]; done.
    - intros [_ ?]. lia. }
  split; [exact Hiff|]. split; [|split].
  - intros Hlong. apply Hiff. pose proof (trim_length t).
    split; [|lia]. intros Hnil. rewrite Hnil in Hlong. simpl in Hlong. lia.
  - intros Hne _ Hlong. by apply Hiff.
  - intros Hnil. split.
    + intros [Hne _]%Hiff. done.
    + rewrite validateNote_VStr, decide_True by done.
      apply elem_of_app. left. apply list_elem_of_here.
Qed.

(* ===================================================================== *)
(** ** Validation failures *)
(* ===================================================================== *)

(** C5.  When the validator finds a violation, [POST /notes] and
    [PUT /notes/:id] answer 400 with the list of violations and the
    notes file stays exactly as it was, whatever its state and whatever
    the id, present in the collection or not. *)
Theorem validation_failure_frame (title content : jsval) :
  validateNote title content <> [] ->
  forall (f : file) (uuid now noteId : jsstring),
    createNote uuid now title content f =
      (mkResponse 400
         (ValidationError (js "Validation failed")
            (validateNote title content)), f) /\
    updateNote noteId title content f =
      (mkResponse 400
         (ValidationError (js "Validation failed")
            (validateNote title content)), f).
Proof.
  intros Hv f uuid now noteId.
  unfold createNote, updateNote, handler.
  destruct (validateNote title content) as [|e errors]; [done|].
  split; reflexivity.
Qed.

(** C5 on a request with no title and a blank content, for an id that
    the demo collection does not have. *)
Lemma validation_failure_frame_witness :
  validateNote emptyBody.1 emptyBody.2 = [titleRequired; contentRequired] /\
  updateNote (js "no-such-id") emptyBody.1 emptyBody.2 (Stored sevenNotes) =
    (mkResponse 400
       (ValidationError (js "Validation failed")
          [titleRequired; contentRequired]), Stored sevenNotes).
Proof.
  split; [reflexivity|].
  exact (proj2 (validation_failure_frame emptyBody.1 emptyBody.2
                  ltac:(discriminate) (Stored sevenNotes)
                  (js "u") (js "t") (js "no-such-id"))).
Defined.

(* ===================================================================== *)
(** ** Reads do not write *)
(* ===================================================================== *)

(** C10.  Once [notes.json] exists, [GET /notes] and [GET /notes/:id]
    leave it as it is, for every query and every id. *)
Theorem reads_frame (toLowerCase : jsstring -> jsstring) (f : file)
    (q : query) (noteId : jsstring) :
  f <> Missing ->
  snd (listNotes toLowerCase q f) = f /\ snd (getNote noteId f) = f.
Proof.
  intros Hf. destruct f as [| |notes]; [done | by split |].
  split; [by rewrite listNotes_Stored|].
  unfold getNote, handler, bind. rewrite readNotesFile_Stored.
  destruct (find noteId notes) as [note|]; [|done].
  by destruct (deleted note).
Qed.

(** C10 on the demo collection, for a page past the end and an id that
    is not there. *)
Lemma reads_frame_witness :
  Stored sevenNotes <> Missing /\
  snd (listNotes lowerASCII (pageQuery 9 3) (Stored sevenNotes)) =
    Stored sevenNotes /\
  snd (getNote (js "no-such-id") (Stored sevenNotes)) = Stored sevenNotes.
Proof.
  split; [discriminate|].
  exact (reads_frame lowerASCII (Stored sevenNotes) (pageQuery 9 3)
           (js "no-such-id") ltac:(discriminate)).
Defined.

(** The first read of a file that is not there creates it. *)
Lemma reads_create_missing (toLowerCase : jsstring -> jsstring)
    (q : query) (noteId : jsstring) :
  snd (listNotes toLowerCase q Missing) = Stored [] /\
  snd (getNote noteId Missing) = Stored [].
Proof. split; reflexivity. Qed.

(* ===================================================================== *)
(** ** Looking a note up by id *)
(* ===================================================================== *)

Lemma readNotesFile_collection (f : file) (notes : list Note) :
  collection f = Some notes ->
  readNotesFile f = (Return notes, Stored notes).
Proof. destruct f; intros [= <-]; reflexivity. Qed.

Lemma list_find_unique (notes : list Note) (k : nat) (n : Note) :
  uniqueIds notes -> notes !! k = Some n ->
  list_find (fun m => id m = id n) notes = Some (k, n).
Proof.
  intros Hnd Hk. apply list_find_Some. split; [done|]. split; [done|].
  intros j y Hj Hlt Hid.
  assert (k = j); [|lia].
  apply (NoDup_lookup (id <$> notes) k j (id n) Hnd).
  - by rewrite list_lookup_fmap, Hk.
  - by rewrite list_lookup_fmap, Hj, <- Hid.
Qed.

Lemma list_find_absent (notes : list Note) (noteId : jsstring) :
  noteId ∉ id <$> notes ->
  list_find (fun m => id m = noteId) notes = None.
Proof.
  intros Hno. apply list_find_None, Forall_forall. intros m Hm <-.
  apply list_elem_of_In in Hm. apply Hno, list_elem_of_fmap. by exists m.
Qed.

(** Replacing the found record by one with the same id keeps it the
    found one. *)
Lemma list_find_replace (notes : list Note) (noteId : jsstring)
    (k : nat) (old new : Note) :
  list_find (fun m => id m = noteId) notes = Some (k, old) ->
  id new = noteId ->
  list_find (fun m => id m = noteId) (<[k := new]> notes) = Some (k, new).
Proof.
  intros (Hk & _ & Hfirst)%list_find_Some Hid. apply list_find_Some.
  split; [|split; [done|]].
  - apply list_lookup_insert_eq. by eapply lookup_lt_Some.
  - intros j y Hj Hlt. rewrite list_lookup_insert_ne in Hj by lia. eauto.
Qed.

Lemma getNote_Stored (noteId : jsstring) (notes : list Note) :
  getNote noteId (Stored notes) =
  (match list_find (fun m => id m = noteId) notes with
   | Some (_, note) =>
       if deleted note then notFound else mkResponse 200 (OneNote note)
   | None => notFound
   end, Stored notes).
Proof.
  unfold getNote, handler, bind, find. rewrite readNotesFile_Stored.
  destruct (list_find _ notes) as [[k note]|]; [|done].
  simpl. by destruct (deleted note).
Qed.

Lemma deleteNote_Stored (noteId : jsstring) (notes : list Note) :
  deleteNote noteId (Stored notes) =
  match list_find (fun m => id m = noteId) notes with
  | Some (k, old) =>
      if deleted old then (notFound, Stored notes)
      else (mkResponse 200 (Message (js "Note deleted successfully")),
            Stored (<[k := markDeleted old]> notes))
  | None => (notFound, Stored notes)
  end.
Proof.
  unfold deleteNote, handler, bind, findIndex. rewrite readNotesFile_Stored.
  destruct (list_find _ notes) as [[k old]|] eqn:Hfind; [|done].
  apply list_find_Some in Hfind as (Hk & _). simpl. rewrite Hk.
  by destruct (deleted old).
Qed.

Lemma updateNote_Stored (noteId t c : jsstring) (notes : list Note) :
  validateNote (VStr t) (VStr c) = [] ->
  updateNote noteId (VStr t) (VStr c) (Stored notes) =
  match list_find (fun m => id m = noteId) notes with
  | Some (k, old) =>
      if deleted old then (notFound, Stored notes)
      else (mkResponse 200 (OneNote (withTitleContent old (trim t) (trim c))),
            Stored (<[k := withTitleContent old (trim t) (trim c)]> notes))
  | None => (notFound, Stored notes)
  end.
Proof.
  intros Hv. unfold updateNote, handler, bind, findIndex. rewrite Hv.
  simpl. 
  destruct (list_find _ notes) as [[k old]|] eqn:Hfind; [|done].
  apply list_find_Some in Hfind as (Hk & _). simpl. rewrite Hk.
  by destruct (deleted old).
Qed.

Lemma createNote_valid (uuid now t c : jsstring) (f : file)
    (notes : list Note) :
  validateNote (VStr t) (VStr c) = [] ->
  collection f = Some notes ->
  createNote uuid now (VStr t) (VStr c) f =
  (mkResponse 201 (OneNote (mkNote uuid (trim t) (trim c) now false)),
   Stored (notes ++ [mkNote uuid (trim t) (trim c) now false])).
Proof.
  intros Hv Hf. unfold createNote, handler, bind. rewrite Hv. simpl.
  by rewrite (readNotesFile_collection f notes Hf).
Qed.

(* ===================================================================== *)
(** ** Create, then read back *)
(* ===================================================================== *)

(** C6.  For a pair that passes validation and an id from [uuidv4()]
    that no record of the collection has yet, [POST /notes] answers 201
    with a note, and [GET /notes/:id] on that note's id then answers 200
    with the same note: its title and content are the trimmed inputs,
    [deleted] is false and [createdAt] is the time stamp taken during
    the creation. *)
Theorem create_then_get (uuid now : jsstring) (titleIn contentIn : jsval)
    (f : file) (notes : list Note) :
  validateNote titleIn contentIn = [] ->
  collection f = Some notes ->
  uuid ∉ id <$> notes ->
  exists t c note f',
    titleIn = VStr t /\ contentIn = VStr c /\
    createNote uuid now titleIn contentIn f =
      (mkResponse 201 (OneNote note), f') /\
    getNote (id note) f' = (mkResponse 200 (OneNote note), f') /\
    title note = trim t /\ content note = trim c /\
    deleted note = false /\ createdAt note = now.
Proof.
  intros Hv Hf Hfresh.
  destruct (validateNote_nil _ _ Hv) as (t & c & -> & -> & _).
  set (note := mkNote uuid (trim t) (trim c) now false).
  exists t, c, note, (Stored (notes ++ [note])).
  split; [done|]. split; [done|].
  split; [by apply createNote_valid|].
  split; [|done].
  rewrite getNote_Stored.
  rewrite list_find_app_r by by apply list_find_absent.
  cbn [list_find]. by rewrite decide_True.
Qed.

(** C6 on the demo collection. *)
Lemma create_then_get_witness :
  validateNote planTitle planContent = [] /\
  collection (Stored sevenNotes) = Some sevenNotes /\
  exists note f',
    createNote (decimal 9) (js "2025-06-27T08:15:30.000Z")
      planTitle planContent (Stored sevenNotes) =
      (mkResponse 201 (OneNote note), f') /\
    getNote (id note) f' = (mkResponse 200 (OneNote note), f') /\
    title note = js "Project Plan".
Proof.
  split; [reflexivity|]. split; [reflexivity|].
  destruct (create_then_get (decimal 9) (js "2025-06-27T08:15:30.000Z")
              planTitle planContent (Stored sevenNotes) sevenNotes)
    as (t & c & note & f' & Ht & _ & Hcreate & Hget & Htitle & _).
  - reflexivity.
  - reflexivity.
  - apply (bool_decide_unpack _). vm_compute. reflexivity.
  - exists note, f'. split; [exact Hcreate|]. split; [exact Hget|].
    rewrite Htitle. injection Ht as <-. reflexivity.
Defined.

(* ===================================================================== *)
(** ** Update *)
(* ===================================================================== *)

(** C7.  In a collection with unique ids that holds a visible note [n]
    at position [k], [PUT /notes/:id] with [n]'s id and a pair that
    passes validation answers 200 with the updated note: title and
    content are the trimmed inputs, id, createdAt and deleted are those
    of [n]; the stored collection has the same length, the updated note
    at position [k], and every other position as before. *)
Theorem update_frame (notes : list Note) (k : nat) (n : Note)
    (titleIn contentIn : jsval) :
  uniqueIds notes ->
  notes !! k = Some n ->
  deleted n = false ->
  validateNote titleIn contentIn = [] ->
  exists t c n' notes',
    titleIn = VStr t /\ contentIn = VStr c /\
    updateNote (id n) titleIn contentIn (Stored notes) =
      (mkResponse 200 (OneNote n'), Stored notes') /\
    title n' = trim t /\ content n' = trim c /\
    id n' = id n /\ createdAt n' = createdAt n /\ deleted n' = deleted n /\
    length notes' = length notes /\
    notes' !! k = Some n' /\
    (forall j, j <> k -> notes' !! j = notes !! j).
Proof.
  intros Hnd Hk Hvis Hv.
  destruct (validateNote_nil _ _ Hv) as (t & c & -> & -> & _).
  exists t, c, (withTitleContent n (trim t) (trim c)),
    (<[k := withTitleContent n (trim t) (trim c)]> notes).
  split; [done|]. split; [done|]. split.
  { rewrite updateNote_Stored by done.
    by rewrite (list_find_unique notes k n Hnd Hk), Hvis. }
  repeat (split; [done|]).
  split; [apply length_insert|]. split.
  - apply list_lookup_insert_eq. by eapply lookup_lt_Some.
  - intros j Hj. by apply list_lookup_insert_ne.
Qed.

Lemma sevenNotes_uniqueIds : uniqueIds sevenNotes.
Proof. apply (bool_decide_unpack _). vm_compute. reflexivity. Qed.

(** C7 on the demo collection: the note at position 1 is retitled, its
    neighbours stay. *)
Lemma update_frame_witness :
  uniqueIds sevenNotes /\
  exists n' notes',
    updateNote (decimal 2) planTitle planContent (Stored sevenNotes) =
      (mkResponse 200 (OneNote n'), Stored notes') /\
    title n' = js "Project Plan" /\
    notes' !! 1%nat = Some n' /\
    notes' !! 0%nat = sevenNotes !! 0%nat /\
    notes' !! 2%nat = sevenNotes !! 2%nat.
Proof.
  split; [exact sevenNotes_uniqueIds|].
  destruct (update_frame sevenNotes 1
              (demoNote 2 "Groceries" "milk, eggs" false)
              planTitle planContent sevenNotes_uniqueIds)
    as (t & c & n' & notes' & Ht & _ & Hrun & Htitle & _ & _ & _ & _ & _
        & Hk & Hother).
  - reflexivity.
  - reflexivity.
  - reflexivity.
  - exists n', notes'. split; [exact Hrun|]. split.
    + rewrite Htitle. injection Ht as <-. reflexivity.
    + split; [exact Hk|]. split; apply Hother; lia.
Defined.

(* ===================================================================== *)
(** ** Soft delete *)
(* ===================================================================== *)

(** What a successful [DELETE /notes/:id] found and did. *)
Lemma deleteNote_success (noteId : jsstring) (notes : list Note)
    (r : response) (f1 : file) :
  deleteNote noteId (Stored notes) = (r, f1) ->
  status r = 200%nat ->
  exists k n,
    list_find (fun m => id m = noteId) notes = Some (k, n) /\
    deleted n = false /\
    r = deletedOk /\
    f1 = Stored (<[k := markDeleted n]> notes).
Proof.
  rewrite deleteNote_Stored. intros Hrun Hstatus.
  destruct (list_find _ notes) as [[k n]|] eqn:Hfind.
  - destruct (deleted n) eqn:Hdel; injection Hrun as <- <-; [done|].
    by exists k, n.
  - by injection Hrun as <- <-.
Qed.

(** After a successful delete the same id is not found any more, by
    [DELETE] and by [GET] alike, and nothing is written. *)
Lemma not_found_after_delete (noteId : jsstring) (notes : list Note)
    (k : nat) (n : Note) :
  list_find (fun m => id m = noteId) notes = Some (k, n) ->
  let f1 := Stored (<[k := markDeleted n]> notes) in
  deleteNote noteId f1 = (notFound, f1) /\
  getNote noteId f1 = (notFound, f1).
Proof.
  intros Hfind f1. unfold f1.
  pose proof (proj1 (list_find_Some _ _ _ _) Hfind) as (_ & Hid & _).
  rewrite deleteNote_Stored, getNote_Stored.
  by rewrite (list_find_replace notes noteId k n (markDeleted n) Hfind Hid).
Qed.

(** C8.  [DELETE /notes/:id] answers 404 and writes nothing when no
    record has the id, and when the record with the id (ids being
    unique) has [deleted = true] already; on a visible note the first
    call answers 200 and a second call answers 404 and leaves the
    collection as the first call stored it. *)
Theorem delete_not_found (notes : list Note) :
  (forall noteId, noteId ∉ id <$> notes ->
     deleteNote noteId (Stored notes) = (notFound, Stored notes)) /\
  (forall n, uniqueIds notes -> n ∈ notes -> deleted n = true ->
     deleteNote (id n) (Stored notes) = (notFound, Stored notes)) /\
  (forall n, uniqueIds notes -> n ∈ notes -> deleted n = false ->
     exists f1,
       deleteNote (id n) (Stored notes) = (deletedOk, f1) /\
       deleteNote (id n) f1 = (notFound, f1)).
Proof.
  split; [|split].
  - intros noteId Hno. rewrite deleteNote_Stored.
    by rewrite list_find_absent.
  - intros n Hnd [k Hk]%list_elem_of_lookup Hdel.
    rewrite deleteNote_Stored.
    by rewrite (list_find_unique notes k n Hnd Hk), Hdel.
  - intros n Hnd [k Hk]%list_elem_of_lookup Hvis.
    pose proof (list_find_unique notes k n Hnd Hk) as Hfind.
    exists (Stored (<[k := markDeleted n]> notes)). split.
    + rewrite deleteNote_Stored. by rewrite Hfind, Hvis.
    + apply (not_found_after_delete (id n) notes k n Hfind).
Qed.

(** C8 on the demo collection: note 3 is deleted already, note 4 can be
    deleted once. *)
Lemma delete_not_found_witness :
  uniqueIds sevenNotes /\
  deleteNote (decimal 3) (Stored sevenNotes) = (notFound, Stored sevenNotes) /\
  exists f1,
    deleteNote (decimal 4) (Stored sevenNotes) = (deletedOk, f1) /\
    deleteNote (decimal 4) f1 = (notFound, f1).
Proof.
  split; [exact sevenNotes_uniqueIds|].
  destruct (delete_not_found sevenNotes) as (_ & Hdeleted & Hvisible).
  split.
  - apply (Hdeleted (demoNote 3 "Old draft" "superseded" true)
             sevenNotes_uniqueIds).
    + apply (bool_decide_unpack _). vm_compute. reflexivity.
    + reflexivity.
  - apply (Hvisible (demoNote 4 "Meeting" "project sync on Monday" false)
             sevenNotes_uniqueIds).
    + apply (bool_decide_unpack _). vm_compute. reflexivity.
    + reflexivity.
Defined.

(** C4, as claimed, fails on a collection of eleven notes: after the
    eleventh is deleted, [GET /notes?includeDeleted=true] answers with
    the first ten, none of which has its id. *)
Lemma soft_delete_counterexample :
  exists f1 items pg,
    deleteNote (decimal 11) (Stored elevenNotes) = (deletedOk, f1) /\
    listNotes lowerASCII includeDeletedQuery f1 =
      (mkResponse 200 (NotesPage items pg), f1) /\
    total pg = numOfN 11 /\
    length items = 10%nat /\
    Forall (fun m => id m <> decimal 11) items.
Proof.
  eexists _, _, _. split; [vm_compute; reflexivity|].
  split; [vm_compute; reflexivity|].
  split; [reflexivity|]. split; [reflexivity|].
  apply (bool_decide_unpack _). vm_compute. reflexivity.
Qed.

(** [GET /notes] without [page] and [limit]: the first ten of the
    filtered sequence. *)
Lemma listNotes_default (toLowerCase : jsstring -> jsstring)
    (notes : list Note) (search includeDeleted : option jsstring) :
  exists pg,
    listNotes toLowerCase (mkQuery None None search includeDeleted)
      (Stored notes) =
    (mkResponse 200
       (NotesPage
          (take 10 (searchNotes toLowerCase search
                      (visibleNotes includeDeleted notes))) pg),
     Stored notes).
Proof.
  rewrite listNotes_absent_defaults.
  change (js "1") with (decimal 1). change (js "10") with (decimal 10).
  rewrite (listNotes_page_exact toLowerCase notes 1 10 search
             includeDeleted) by done.
  cbv zeta. rewrite filterNotes_spec. eexists. reflexivity.
Qed.

Lemma visibleNotes_not_deleted (notes : list Note) :
  Forall (fun m => deleted m = false) (visibleNotes None notes).
Proof.
  apply list.Forall_forall. intros m Hm.
  unfold visibleNotes in Hm. rewrite decide_False in Hm by done.
  by apply list_elem_of_filter in Hm as [? _].
Qed.

Lemma visibleNotes_included (notes : list Note) :
  visibleNotes (Some (js "true")) notes = notes.
Proof. unfold visibleNotes. by rewrite decide_True. Qed.

Lemma uniqueIds_replace (notes : list Note) (k : nat) (old new : Note) :
  notes !! k = Some old -> id new = id old ->
  uniqueIds notes -> uniqueIds (<[k := new]> notes).
Proof.
  unfold uniqueIds. intros Hk Hid Hnd.
  rewrite list_fmap_insert, Hid, list_insert_id; [done|].
  by rewrite list_lookup_fmap, Hk.
Qed.

(** C4, amended.  After a successful [DELETE /notes/:id], which found a
    visible note [n] with that id at some position [k] and stored it
    with [deleted = true]: [GET /notes/:id] answers 404; the default
    [GET /notes] has only records with [deleted = false] among its
    items, so not the deleted one (and, ids being unique, none with its
    id); [GET /notes?includeDeleted=true] has the note with
    [deleted = true] on the page that covers position [k] of the
    collection: on the default page when [k < 10], and on page [p] of
    [l] per page when [(p-1)*l <= k < (p-1)*l + l], for a limit [l]
    below 2^53 and a collection of fewer than 2^32 records (the most a
    JavaScript array holds). *)
Theorem soft_delete_visibility (toLowerCase : jsstring -> jsstring)
    (notes : list Note) (noteId : jsstring) (r : response) (f1 : file) :
  deleteNote noteId (Stored notes) = (r, f1) ->
  status r = 200%nat ->
  exists k n,
    notes !! k = Some n /\ id n = noteId /\ deleted n = false /\
    f1 = Stored (<[k := markDeleted n]> notes) /\
    getNote noteId f1 = (notFound, f1) /\
    (exists items pg,
       listNotes toLowerCase (mkQuery None None None None) f1 =
         (mkResponse 200 (NotesPage items pg), f1) /\
       Forall (fun m => deleted m = false) items /\
       (markDeleted n ∉ items) /\
       (uniqueIds notes -> Forall (fun m => id m <> noteId) items)) /\
    (exists items pg,
       listNotes toLowerCase includeDeletedQuery f1 =
         (mkResponse 200 (NotesPage items pg), f1) /\
       ((k < 10)%nat -> items !! k = Some (markDeleted n))) /\
    (forall p l, 0 < p -> 0 < l < 2 ^ 53 ->
       N.of_nat (length notes) < 2 ^ 32 ->
       (p - 1) * l <= N.of_nat k < (p - 1) * l + l ->
       exists items pg,
         listNotes toLowerCase
           (mkQuery (Some (decimal p)) (Some (decimal l)) None
              (Some (js "true"))) f1 =
           (mkResponse 200 (NotesPage items pg), f1) /\
         items !! (k - N.to_nat ((p - 1) * l))%nat = Some (markDeleted n)).
Proof.
  intros Hrun Hstatus.
  destruct (deleteNote_success _ _ _ _ Hrun Hstatus)
    as (k & n & Hfind & Hvis & _ & ->).
  pose proof (proj1 (list_find_Some _ _ _ _) Hfind) as (Hk & Hid & _).
  pose proof (lookup_lt_Some _ _ _ Hk) as Hlt.
  set (notes' := <[k := markDeleted n]> notes).
  assert (notes' !! k = Some (markDeleted n)) as Hk'
    by by apply list_lookup_insert_eq.
  exists k, n. repeat (split; [done|]).
  split; [apply (not_found_after_delete noteId notes k n Hfind)|].
  split; [|split].
  - destruct (listNotes_default toLowerCase notes' None None) as [pg Hlist].
    cbn [searchNotes] in Hlist.
    assert (Forall (fun m => deleted m = false)
              (take 10 (visibleNotes None notes'))) as Hall
      by apply Forall_take, visibleNotes_not_deleted.
    eexists _, pg. split; [exact Hlist|]. split; [exact Hall|]. split.
    + intros Hin. by apply (proj1 (list.Forall_forall _ _) Hall) in Hin.
    + intros Hnd. apply list.Forall_forall. intros m Hm Hidm.
      pose proof (proj1 (list.Forall_forall _ _) Hall m Hm) as Hdel.
      apply elem_of_take in Hm as (j & Hj & _).
      unfold visibleNotes in Hj. rewrite decide_False in Hj by done.
      assert (m ∈ notes') as [j' Hj']%list_elem_of_lookup.
      { apply (list_elem_of_filter (fun m => deleted m = false) notes' m).
        eapply list_elem_of_lookup_2, Hj. }
      assert (j' = k) as ->.
      { apply (NoDup_lookup (id <$> notes') j' k noteId).
        - by apply (uniqueIds_replace notes k n).
        - rewrite list_lookup_fmap, Hj'. simpl. by rewrite Hidm.
        - rewrite list_lookup_fmap, Hk'. simpl. by rewrite Hid. }
      rewrite Hk' in Hj'. by injection Hj' as <-.
  - destruct (listNotes_default toLowerCase notes' None (Some (js "true")))
      as [pg Hlist].
    cbn [searchNotes] in Hlist. rewrite visibleNotes_included in Hlist.
    eexists _, pg. split; [exact Hlist|].
    intros Hk10. by rewrite lookup_take_lt.
  - intros p l Hp [Hl Hl'] Hlen Hwin.
    assert (p < 2 ^ 53) as Hp' by nia.
    rewrite (listNotes_page toLowerCase notes' p l None (Some (js "true")))
      by (done || (unfold notes'; by rewrite length_insert)).
    cbv zeta. rewrite filterNotes_spec. cbn [searchNotes].
    rewrite visibleNotes_included.
    eexists _, _. split; [reflexivity|].
    revert Hwin. generalize ((p - 1) * l). intros a Hwin.
    rewrite lookup_take_lt by lia. rewrite lookup_drop.
    replace (N.to_nat a + (k - N.to_nat a))%nat with k by lia. done.
Qed.

(** C4 on the demo collection: note 4, at position 3, is deleted and
    then listed on the second page of two per page. *)
Lemma soft_delete_visibility_witness :
  deleteNote (decimal 4) (Stored sevenNotes) =
    (deletedOk, Stored (<[3%nat :=
       demoNote 4 "Meeting" "project sync on Monday" true]> sevenNotes)) /\
  status deletedOk = 200%nat /\
  exists k n f1,
    sevenNotes !! k = Some n /\ id n = decimal 4 /\
    getNote (decimal 4) f1 = (notFound, f1) /\
    exists items pg,
      listNotes lowerASCII includeDeletedQuery f1 =
        (mkResponse 200 (NotesPage items pg), f1) /\
      ((k < 10)%nat -> items !! k = Some (markDeleted n)).
Proof.
  split; [reflexivity|]. split; [reflexivity|].
  destruct (soft_delete_visibility lowerASCII sevenNotes (decimal 4)
              deletedOk
              (Stored (<[3%nat :=
                 demoNote 4 "Meeting" "project sync on Monday" true]>
                 sevenNotes)) eq_refl eq_refl)
    as (k & n & Hk & Hid & _ & Hf1 & Hget & _ & Hincl & _).
  exists k, n, (Stored (<[3%nat :=
    demoNote 4 "Meeting" "project sync on Monday" true]> sevenNotes)).
  split; [exact Hk|]. split; [exact Hid|]. split; [exact Hget|].
  exact Hincl.
Defined.

(* ##################################################################### *)
(** * Part III: further properties of the routes *)
(* ##################################################################### *)

(* ===================================================================== *)
(** ** The notes file: first run, unreadable file, failed requests *)
(* ===================================================================== *)

Lemma readNotesFile_same (f : file) (notes : list Note) :
  collection f = Some notes ->
  readNotesFile f = readNotesFile (Stored notes).
Proof. destruct f; intros [= <-]; reflexivity. Qed.

(** A handler that starts by reading cannot tell a missing file from an
    empty collection. *)
Lemma routes_same (toLowerCase : jsstring -> jsstring) (f : file)
    (notes : list Note) :
  collection f = Some notes ->
  (forall q,
     listNotes toLowerCase q f = listNotes toLowerCase q (Stored notes)) /\
  (forall i, getNote i f = getNote i (Stored notes)) /\
  (forall i, deleteNote i f = deleteNote i (Stored notes)) /\
  (forall i t c, validateNote t c = [] ->
     updateNote i t c f = updateNote i t c (Stored notes)) /\
  (forall u d t c, validateNote t c = [] ->
     createNote u d t c f = createNote u d t c (Stored notes)).
Proof.
  intros Hf. pose proof (readNotesFile_same f notes Hf) as Hread.
  repeat split; intros; unfold listNotes, getNote, deleteNote, updateNote,
    createNote, handler, bind.
  - by rewrite Hread.
  - by rewrite Hread.
  - by rewrite Hread.
  - rewrite H. simpl. by rewrite Hread.
  - destruct (validateNote_nil _ _ H) as (t' & c' & -> & -> & _).
    rewrite H. simpl. by rewrite Hread.
Qed.

(** X1.  On the first run, when [notes.json] does not exist yet, the
    reading routes create it as an empty collection and answer from it:
    [GET /notes] answers 200 with no items and a total of 0 whatever the
    query, [GET /notes/:id] and [DELETE /notes/:id] answer 404. *)
Theorem first_run (toLowerCase : jsstring -> jsstring) (q : query)
    (noteId : jsstring) :
  (exists pg,
     listNotes toLowerCase q Missing =
       (mkResponse 200 (NotesPage [] pg), Stored []) /\
     total pg = numOfN 0) /\
  getNote noteId Missing = (notFound, Stored []) /\
  deleteNote noteId Missing = (notFound, Stored []).
Proof.
  split; [|split; reflexivity].
  destruct (routes_same toLowerCase Missing [] eq_refl) as (-> & _).
  rewrite listNotes_Stored. cbv zeta.
  assert (forall i s, filterNotes toLowerCase i s [] = []) as ->
    by (intros i [[|]|]; unfold filterNotes; by case_bool_decide).
  unfold slice. rewrite drop_nil, take_nil. eexists. split; reflexivity.
Qed.

(** X2.  While [notes.json] cannot be parsed, every route that gets as
    far as reading it answers 500 and leaves the file as it is: the
    three routes without a body always, and [POST] and [PUT] for a body
    that passes validation. *)
Theorem malformed_file (toLowerCase : jsstring -> jsstring) (q : query)
    (noteId uuid now : jsstring) (titleIn contentIn : jsval) :
  listNotes toLowerCase q Malformed = (internalError, Malformed) /\
  getNote noteId Malformed = (internalError, Malformed) /\
  deleteNote noteId Malformed = (internalError, Malformed) /\
  (validateNote titleIn contentIn = [] ->
   createNote uuid now titleIn contentIn Malformed =
     (internalError, Malformed) /\
   updateNote noteId titleIn contentIn Malformed =
     (internalError, Malformed)).
Proof.
  repeat (split; [reflexivity|]).
  intros Hv. destruct (validateNote_nil _ _ Hv) as (t & c & -> & -> & _).
  unfold createNote, updateNote, handler, bind. rewrite Hv.
  split; reflexivity.
Qed.

(** X2 for the request of the examples. *)
Lemma malformed_file_witness :
  validateNote planTitle planContent = [] /\
  createNote (decimal 9) (js "2025-06-27T08:15:30.000Z")
    planTitle planContent Malformed = (internalError, Malformed) /\
  updateNote (decimal 2) planTitle planContent Malformed =
    (internalError, Malformed).
Proof.
  split; [reflexivity|].
  exact (proj2 (proj2 (proj2
    (malformed_file lowerASCII (pageQuery 1 3) (decimal 2) (decimal 9)
       (js "2025-06-27T08:15:30.000Z") planTitle planContent))) eq_refl).
Defined.

(** A body that fails validation is answered before the file is read. *)
Lemma invalid_body (title content : jsval) (f : file)
    (uuid now noteId : jsstring) :
  validateNote title content <> [] ->
  createNote uuid now title content f =
    (validationFailed (validateNote title content), f) /\
  updateNote noteId title content f =
    (validationFailed (validateNote title content), f).
Proof.
  intros Hv. unfold createNote, updateNote, handler.
  destruct (validateNote title content); [done|]. split; reflexivity.
Qed.



Lemma deleteNote_cases (noteId : jsstring) (notes : list Note) :
  deleteNote noteId (Stored notes) = (notFound, Stored notes) \/
  exists k n,
    list_find (fun m => id m = noteId) notes = Some (k, n) /\
    deleted n = false /\
    deleteNote noteId (Stored notes) =
      (deletedOk, Stored (<[k := markDeleted n]> notes)).
Proof.
  rewrite deleteNote_Stored.
  destruct (list_find _ notes) as [[k n]|] eqn:Hfind; [|by left].
  destruct (deleted n) eqn:Hdel; [by left|]. right. by exists k, n.
Qed.

Lemma updateNote_cases (noteId : jsstring) (title content : jsval)
    (notes : list Note) :
  (validateNote title content <> [] /\
   updateNote noteId title content (Stored notes) =
     (validationFailed (validateNote title content), Stored notes)) \/
  (validateNote title content = [] /\
   updateNote noteId title content (Stored notes) =
     (notFound, Stored notes)) \/
  exists t c k n,
    title = VStr t /\ content = VStr c /\
    validateNote title content = [] /\
    list_find (fun m => id m = noteId) notes = Some (k, n) /\
    deleted n = false /\
    updateNote noteId title content (Stored notes) =
      (mkResponse 200 (OneNote (withTitleContent n (trim t) (trim c))),
       Stored (<[k := withTitleContent n (trim t) (trim c)]> notes)).
Proof.
  destruct (decide (validateNote title content = [])) as [Hv|Hv].
  - right. destruct (validateNote_nil _ _ Hv) as (t & c & -> & -> & _).
    rewrite updateNote_Stored by done.
    destruct (list_find _ notes) as [[k n]|] eqn:Hfind; [|by left].
    destruct (deleted n) eqn:Hdel; [by left|]. right.
    by exists t, c, k, n.
  - left. split; [done|].
    apply (invalid_body title content (Stored notes) [] [] noteId Hv).
Qed.

Lemma createNote_cases (uuid now : jsstring) (title content : jsval)
    (notes : list Note) :
  (validateNote title content <> [] /\
   createNote uuid now title content (Stored notes) =
     (validationFailed (validateNote title content), Stored notes)) \/
  exists t c,
    title = VStr t /\ content = VStr c /\
    validateNote title content = [] /\
    createNote uuid now title content (Stored notes) =
      (mkResponse 201 (OneNote (mkNote uuid (trim t) (trim c) now false)),
       Stored (notes ++ [mkNote uuid (trim t) (trim c) now false])).
Proof.
  destruct (decide (validateNote title content = [])) as [Hv|Hv].
  - right. destruct (validateNote_nil _ _ Hv) as (t & c & -> & -> & _).
    exists t, c. repeat (split; [done|]). by apply createNote_valid.
  - left. split; [done|].
    apply (invalid_body title content (Stored notes) uuid now [] Hv).
Qed.



(** X4.  A request that is not answered with success writes nothing:
    once [notes.json] exists, [POST] without a 201, and [PUT] and
    [DELETE] without a 200, leave the file exactly as it was. *)
Theorem failed_request_frame (f : file) (noteId uuid now : jsstring)
    (titleIn contentIn : jsval) :
  f <> Missing ->
  (status (createNote uuid now titleIn contentIn f).1 <> 201%nat ->
   (createNote uuid now titleIn contentIn f).2 = f) /\
  (status (updateNote noteId titleIn contentIn f).1 <> 200%nat ->
   (updateNote noteId titleIn contentIn f).2 = f) /\
  (status (deleteNote noteId f).1 <> 200%nat ->
   (deleteNote noteId f).2 = f).
Proof.
  intros Hf. destruct f as [| |notes]; [done| |].
  - split; [|split]; intros _; [| |reflexivity];
      (destruct (decide (validateNote titleIn contentIn = [])) as [Hv|Hv];
       [ destruct (validateNote_nil _ _ Hv) as (t & c & -> & -> & _);
         unfold createNote, updateNote, handler, bind; by rewrite Hv
       | destruct (invalid_body titleIn contentIn Malformed uuid now
                     noteId Hv) as [Hc Hu]; by rewrite ?Hc, ?Hu ]).
  - split; [|split].
    + by destruct (createNote_cases uuid now titleIn contentIn notes)
        as [[_ ->]|(t & c & _ & _ & _ & ->)].
    + by destruct (updateNote_cases noteId titleIn contentIn notes)
        as [[_ ->]|[[_ ->]|(t & c & k & n & _ & _ & _ & _ & _ & ->)]].
    + by destruct (deleteNote_cases noteId notes)
        as [->|(k & n & _ & _ & ->)].
Qed.

(** X4 on the demo collection: a second delete of note 3 and an update
    of an id that is not there. *)
Lemma failed_request_frame_witness :
  Stored sevenNotes <> Missing /\
  (updateNote (js "no-such-id") planTitle planContent (Stored sevenNotes)).2 =
    Stored sevenNotes /\
  (deleteNote (decimal 3) (Stored sevenNotes)).2 = Stored sevenNotes.
Proof.
  split; [discriminate|].
  destruct (failed_request_frame (Stored sevenNotes) (js "no-such-id")
              (decimal 9) [] planTitle planContent ltac:(discriminate))
    as (_ & Hupd & _).
  destruct (failed_request_frame (Stored sevenNotes) (decimal 3)
              (decimal 9) [] planTitle planContent ltac:(discriminate))
    as (_ & _ & Hdel).
  split; [apply Hupd | apply Hdel]; discriminate.
Defined.

(* ===================================================================== *)
(** ** The validator on every kind of value *)
(* ===================================================================== *)

Lemma blank_missing (v : jsval) : blank v = true <-> missing v.
Proof.
  unfold missing. destruct v as [| | | |s|];
    try (rewrite blank_not_string by done; split; [by intros _ s' | done]).
  rewrite blank_VStr, bool_decide_eq_true. split.
  - by intros Hs s' [= <-].
  - intros H. by apply H.
Qed.

(** The errors of the title, then those of the content. *)
Lemma validateNote_app (title content : jsval) :
  validateNote title content =
  (if blank title then [titleRequired]
   else match title with
        | VStr s => if (100 <? length s)%nat then [titleTooLong] else []
        | _ => []
        end) ++
  (if blank content then [contentRequired] else []).
Proof.
  unfold validateNote. destruct (blank title), (blank content); try done;
    destruct title as [| | | |s|]; try done;
    by destruct (100 <? length s)%nat.
Qed.

(** X5.  [validateNote] accepts a pair exactly when both fields are
    strings with something left after trimming and the title, as sent,
    has at most 100 code units. *)
Theorem validateNote_accepts (titleIn contentIn : jsval) :
  validateNote titleIn contentIn = [] <->
  exists t c,
    titleIn = VStr t /\ contentIn = VStr c /\
    trim t <> [] /\ trim c <> [] /\ (length t <= 100)%nat.
Proof.
  split; [apply validateNote_nil|].
  intros (t & c & -> & -> & Ht & Hc & Hlen).
  rewrite validateNote_VStr, blank_VStr.
  rewrite decide_False by done. rewrite decide_False by lia.
  by rewrite bool_decide_false.
Qed.

(** X6.  [validateNote] reports every violation that applies: "title
    required" exactly when the title is not a string with something left
    after trimming, "content required" exactly when the content is not,
    each whatever the other field is; "title too long" never comes with
    "title required"; and there are at most two violations. *)
Theorem validateNote_violations (titleIn contentIn : jsval) :
  let errors := validateNote titleIn contentIn in
  (titleRequired ∈ errors <-> missing titleIn) /\
  (contentRequired ∈ errors <-> missing contentIn) /\
  (titleTooLong ∈ errors -> titleRequired ∉ errors) /\
  (length errors <= 2)%nat.
Proof.
  intros errors. unfold errors. rewrite validateNote_app.
  rewrite <- !blank_missing.
  assert (titleRequired <> titleTooLong /\ titleRequired <> contentRequired /\
          titleTooLong <> contentRequired) as (H1 & H2 & H3)
    by (repeat split; discriminate).
  destruct (blank titleIn), (blank contentIn);
    try (destruct titleIn as [| | | |s|];
         try destruct (100 <? length s)%nat);
    simpl; repeat split; try lia; try done;
    rewrite ?elem_of_cons, ?elem_of_nil; try tauto;
    intros; intuition congruence.
Qed.

(* ===================================================================== *)
(** ** Trimming *)
(* ===================================================================== *)

Lemma trimStart_startTrimmed (s : jsstring) : startTrimmed (trimStart s).
Proof.
  induction s as [|c s IH]; [done|]. simpl.
  by destruct (isWhiteSpace c) eqn:Hc.
Qed.

Lemma startTrimmed_trimStart (s : jsstring) :
  startTrimmed s -> trimStart s = s.
Proof. destruct s as [|c s]; [done|]. simpl. by intros ->. Qed.

Lemma trimStart_suffix (s : jsstring) : exists ws, s = ws ++ trimStart s.
Proof.
  induction s as [|c s [ws IH]]; [by exists []|]. simpl.
  destruct (isWhiteSpace c); [|by exists []].
  exists (c :: ws). simpl. by rewrite <- IH.
Qed.

Lemma trimEnd_prefix (s : jsstring) : exists ws, s = trimEnd s ++ ws.
Proof.
  destruct (trimStart_suffix (rev s)) as [ws Hws]. exists (rev ws).
  unfold trimEnd. by rewrite <- rev_app_distr, <- Hws, rev_involutive.
Qed.

Lemma trimEnd_startTrimmed (s : jsstring) :
  startTrimmed s -> startTrimmed (trimEnd s).
Proof.
  intros Hs. destruct (trimEnd_prefix s) as [ws Hws].
  destruct (trimEnd s) as [|c r]; [done|].
  rewrite Hws in Hs. exact Hs.
Qed.

Lemma trimEnd_idemp (s : jsstring) : trimEnd (trimEnd s) = trimEnd s.
Proof.
  unfold trimEnd. rewrite rev_involutive.
  by rewrite (startTrimmed_trimStart _ (trimStart_startTrimmed _)).
Qed.

(** Trimming what is trimmed changes nothing. *)
Lemma trim_idemp (s : jsstring) : trim (trim s) = trim s.
Proof.
  unfold trim.
  rewrite (startTrimmed_trimStart (trimEnd (trimStart s)))
    by apply trimEnd_startTrimmed, trimStart_startTrimmed.
  apply trimEnd_idemp.
Qed.

(* ===================================================================== *)
(** ** What every sequence of requests keeps *)
(* ===================================================================== *)

Lemma run_snoc (toLowerCase : jsstring -> jsstring) (reqs : list request)
    (req : request) (f : file) :
  run toLowerCase (reqs ++ [req]) f =
  (serve toLowerCase req (run toLowerCase reqs f)).2.
Proof. unfold run. by rewrite fold_left_app. Qed.

Lemma serve_served (toLowerCase : jsstring -> jsstring) (req : request)
    (f : file) (notes : list Note) :
  collection f = Some notes ->
  exists notes',
    collection (serve toLowerCase req f).2 = Some notes' /\
    served notes req notes'.
Proof.
  intros Hf.
  destruct (routes_same toLowerCase f notes Hf)
    as (Hlist & Hget & Hdel & Hupd & Hcre).
  destruct req as [q|i|u d t c|i t c|i]; cbn [serve].
  - rewrite Hlist, listNotes_Stored. exists notes. split; [done|constructor].
  - rewrite Hget, getNote_Stored. exists notes. split; [done|constructor].
  - destruct (decide (validateNote t c = [])) as [Hv|Hv].
    + rewrite Hcre by done.
      destruct (createNote_cases u d t c notes)
        as [[? _]|(t' & c' & -> & -> & _ & ->)]; [done|].
      eexists. split; [done|]. by constructor.
    + destruct (invalid_body t c f u d [] Hv) as [-> _].
      exists notes. split; [done|constructor].
  - destruct (decide (validateNote t c = [])) as [Hv|Hv].
    + rewrite Hupd by done.
      destruct (updateNote_cases i t c notes)
        as [[? _]|[[_ ->]|(t' & c' & k & n & -> & -> & _ & Hk & Hn & ->)]];
        [done| |].
      * exists notes. split; [done|constructor].
      * eexists. split; [done|]. by econstructor.
    + destruct (invalid_body t c f [] [] i Hv) as [_ ->].
      exists notes. split; [done|constructor].
  - rewrite Hdel.
    destruct (deleteNote_cases i notes) as [->|(k & n & Hk & Hn & ->)].
    + exists notes. split; [done|constructor].
    + eexists. split; [done|]. by econstructor.
Qed.

(** A property of collections that each request keeps holds after any
    sequence of requests. *)
Lemma run_invariant (toLowerCase : jsstring -> jsstring)
    (P : list Note -> list Note -> Prop) :
  (forall notes, P notes notes) ->
  (forall a b c req, P a b -> served b req c -> P a c) ->
  forall reqs f notes,
    collection f = Some notes ->
    exists notes',
      collection (run toLowerCase reqs f) = Some notes' /\ P notes notes'.
Proof.
  intros Hrefl Hstep reqs f notes Hf.
  induction reqs as [|req reqs IH] using rev_ind.
  - exists notes. by split.
  - destruct IH as (mid & Hmid & HP). rewrite run_snoc.
    destruct (serve_served toLowerCase req _ mid Hmid) as (notes' & H' & Hs).
    exists notes'. split; [done|]. by eapply Hstep.
Qed.

Lemma wellFormed_created (uuid now t c : jsstring) :
  validateNote (VStr t) (VStr c) = [] ->
  wellFormed (mkNote uuid (trim t) (trim c) now false).
Proof.
  intros Hv.
  destruct (validateNote_nil _ _ Hv)
    as (t' & c' & [= <-] & [= <-] & Ht & Hc & Hl).
  pose proof (trim_length t). unfold wellFormed. simpl.
  rewrite !trim_idemp. repeat split; try done. lia.
Qed.

Lemma wellFormed_updated (old : Note) (t c : jsstring) :
  validateNote (VStr t) (VStr c) = [] ->
  wellFormed (withTitleContent old (trim t) (trim c)).
Proof. apply (wellFormed_created (id old) (createdAt old)). Qed.

Lemma served_wellFormed (notes notes' : list Note) (req : request) :
  served notes req notes' ->
  Forall wellFormed notes -> Forall wellFormed notes'.
Proof.
  intros Hs Hwf.
  destruct Hs as [req|uuid now t c Hv|i k n t c Hv Hk Hn|i k n Hk Hn].
  - done.
  - apply Forall_app. split; [done|].
    constructor; [by apply wellFormed_created | constructor].
  - apply Forall_insert; [done | by apply wellFormed_updated].
  - apply Forall_insert; [done|].
    apply list_find_Some in Hk as (Hk & _).
    exact (proj1 (Forall_lookup _ _) Hwf k n Hk).
Qed.

(** X7.  Whatever requests are served, in whatever order, a collection
    of well-formed records stays one: every stored title and content is
    non-empty and trimmed, every title has at most 100 code units.  In
    particular this holds of everything the application stores when it
    starts without a file. *)
Theorem wellFormed_invariant (toLowerCase : jsstring -> jsstring)
    (reqs : list request) (f : file) (notes : list Note) :
  collection f = Some notes ->
  Forall wellFormed notes ->
  exists notes',
    collection (run toLowerCase reqs f) = Some notes' /\
    Forall wellFormed notes'.
Proof.
  intros Hf Hwf.
  destruct (run_invariant toLowerCase
              (fun a b => Forall wellFormed a -> Forall wellFormed b)
              (fun _ H => H)
              (fun a b c req Hab Hbc Ha =>
                 served_wellFormed b c req Hbc (Hab Ha))
              reqs f notes Hf) as (notes' & Hrun & HP).
  exists notes'. split; [done | by apply HP].
Qed.

(** X7 for a first run: two notes created, one retitled, one deleted,
    and a few requests that fail in between. *)
Lemma wellFormed_invariant_witness :
  collection Missing = Some [] /\
  exists notes',
    collection (run lowerASCII demoRequests Missing) = Some notes' /\
    length notes' = 2%nat /\
    Forall wellFormed notes'.
Proof.
  split; [reflexivity|].
  destruct (wellFormed_invariant lowerASCII demoRequests Missing []
              eq_refl (Forall_nil_2 _)) as (notes' & Hrun & Hwf).
  exists notes'. split; [exact Hrun|]. split; [|exact Hwf].
  vm_compute in Hrun. injection Hrun as <-. reflexivity.
Defined.

Lemma kept_refl (a : list Note) : kept a a.
Proof. split; [done|]. intros k n Hk. by exists n. Qed.

Lemma served_kept (a b c : list Note) (req : request) :
  kept a b -> served b req c -> kept a c.
Proof.
  intros [Hlen Hab] Hs.
  destruct Hs as [req|uuid now t c Hv|i k0 n0 t c Hv Hk0 Hn0|i k0 n0 Hk0 Hn0].
  - by split.
  - split; [rewrite length_app; lia|].
    intros k n Hk. destruct (Hab k n Hk) as (n' & Hk' & H).
    exists n'. split; [by apply lookup_app_l_Some | done].
  - apply list_find_Some in Hk0 as (Hk0 & _).
    split; [by rewrite length_insert|].
    intros k n Hk. destruct (Hab k n Hk) as (n' & Hk' & Hid & Hat & Hdel).
    destruct (decide (k = k0)) as [->|Hne].
    + rewrite Hk0 in Hk'. injection Hk' as ->.
      eexists. split; [apply list_lookup_insert_eq; by eapply lookup_lt_Some|].
      repeat split; try done.
      intros Hd. rewrite <- (Hdel Hd) in Hd. congruence.
    + exists n'. split; [by rewrite list_lookup_insert_ne | done].
  - apply list_find_Some in Hk0 as (Hk0 & _).
    split; [by rewrite length_insert|].
    intros k n Hk. destruct (Hab k n Hk) as (n' & Hk' & Hid & Hat & Hdel).
    destruct (decide (k = k0)) as [->|Hne].
    + rewrite Hk0 in Hk'. injection Hk' as ->.
      eexists. split; [apply list_lookup_insert_eq; by eapply lookup_lt_Some|].
      repeat split; try done.
      intros Hd. rewrite <- (Hdel Hd) in Hd. congruence.
    + exists n'. split; [by rewrite list_lookup_insert_ne | done].
Qed.

(** X8.  No sequence of requests removes or moves a record or changes
    its id or its [createdAt]: every record of the collection is found
    at the same position afterwards, with the same id and time stamp,
    and a record that was deleted is found there unchanged (so
    [deleted] never goes back to false, and [PUT] never edits a deleted
    note). *)
Theorem records_kept (toLowerCase : jsstring -> jsstring)
    (reqs : list request) (f : file) (notes : list Note) :
  collection f = Some notes ->
  exists notes',
    collection (run toLowerCase reqs f) = Some notes' /\
    (length notes <= length notes')%nat /\
    forall k n, notes !! k = Some n ->
      exists n', notes' !! k = Some n' /\
        id n' = id n /\ createdAt n' = createdAt n /\
        (deleted n = true -> n' = n).
Proof.
  intros Hf.
  exact (run_invariant toLowerCase kept kept_refl served_kept
           reqs f notes Hf).
Qed.

(** X8 on the demo collection. *)
Lemma records_kept_witness :
  collection (Stored sevenNotes) = Some sevenNotes /\
  exists notes',
    collection (run lowerASCII demoRequests (Stored sevenNotes)) =
      Some notes' /\
    notes' !! 2%nat = Some (demoNote 3 "Old draft" "superseded" true).
Proof.
  split; [reflexivity|].
  destruct (records_kept lowerASCII demoRequests (Stored sevenNotes)
              sevenNotes eq_refl) as (notes' & Hrun & _ & Hkept).
  exists notes'. split; [exact Hrun|].
  destruct (Hkept 2%nat (demoNote 3 "Old draft" "superseded" true) eq_refl)
    as (n' & Hn' & _ & _ & Hsame).
  rewrite Hn'. f_equal. by apply Hsame.
Defined.

Lemma served_uniqueIds (notes notes' : list Note) (req : request) :
  served notes req notes' ->
  (forall uuid now t c,
     req = PostNote uuid now t c -> uuid ∉ id <$> notes) ->
  uniqueIds notes -> uniqueIds notes'.
Proof.
  intros Hs Hfresh Hnd.
  destruct Hs as [req|uuid now t c Hv|i k n t c Hv Hk Hn|i k n Hk Hn].
  - done.
  - unfold uniqueIds. rewrite fmap_app. apply list.NoDup_app.
    split; [done|]. split; [|apply NoDup_singleton].
    intros x Hx [->|[]%elem_of_nil]%elem_of_cons.
    by apply (Hfresh uuid now (VStr t) (VStr c)).
  - apply list_find_Some in Hk as (Hk & _).
    by apply (uniqueIds_replace notes k n).
  - apply list_find_Some in Hk as (Hk & _).
    by apply (uniqueIds_replace notes k n).
Qed.

(** X9.  As long as [uuidv4()] never returns the id of a record that is
    already in the collection, ids stay unique through every sequence
    of requests. *)
Theorem uniqueIds_invariant (toLowerCase : jsstring -> jsstring)
    (reqs : list request) (f : file) (notes : list Note) :
  collection f = Some notes ->
  uniqueIds notes ->
  freshIds toLowerCase reqs f ->
  exists notes',
    collection (run toLowerCase reqs f) = Some notes' /\ uniqueIds notes'.
Proof.
  revert f notes.
  induction reqs as [|req reqs IH]; intros f notes Hf Hnd Hfresh.
  - exists notes. by split.
  - destruct Hfresh as [Hreq Hrest].
    destruct (serve_served toLowerCase req f notes Hf) as (mid & Hmid & Hs).
    apply (IH _ mid Hmid); [|done].
    apply (served_uniqueIds notes mid req Hs); [|done].
    intros uuid now t c ->. by rewrite Hf in Hreq.
Qed.

(** X9 for the first run of the examples. *)
Lemma uniqueIds_invariant_witness :
  collection Missing = Some [] /\
  freshIds lowerASCII demoRequests Missing /\
  exists notes',
    collection (run lowerASCII demoRequests Missing) = Some notes' /\
    uniqueIds notes'.
Proof.
  assert (freshIds lowerASCII demoRequests Missing) as Hfresh.
  { repeat split; apply (bool_decide_unpack _); vm_compute; reflexivity. }
  split; [reflexivity|]. split; [exact Hfresh|].
  exact (uniqueIds_invariant lowerASCII demoRequests Missing []
           eq_refl (NoDup_nil_2) Hfresh).
Defined.

Lemma serve_Malformed (toLowerCase : jsstring -> jsstring) (req : request) :
  (serve toLowerCase req Malformed).2 = Malformed.
Proof.
  destruct req as [q|i|u d t c|i t c|i]; cbn [serve]; try reflexivity.
  - destruct (decide (validateNote t c = [])) as [Hv|Hv].
    + destruct (validateNote_nil _ _ Hv) as (t' & c' & -> & -> & _).
      unfold createNote, handler, bind. by rewrite Hv.
    + by destruct (invalid_body t c Malformed u d [] Hv) as [-> _].
  - destruct (decide (validateNote t c = [])) as [Hv|Hv].
    + destruct (validateNote_nil _ _ Hv) as (t' & c' & -> & -> & _).
      unfold updateNote, handler, bind. by rewrite Hv.
    + by destruct (invalid_body t c Malformed [] [] i Hv) as [_ ->].
Qed.

(** X10.  The application never repairs or replaces a [notes.json] that
    cannot be parsed: after any sequence of requests the file is still
    the one that could not be read. *)
Theorem malformed_forever (toLowerCase : jsstring -> jsstring)
    (reqs : list request) :
  run toLowerCase reqs Malformed = Malformed.
Proof.
  induction reqs as [|req reqs IH] using rev_ind; [done|].
  by rewrite run_snoc, IH, serve_Malformed.
Qed.

(* ===================================================================== *)
(** ** Listing: what an answer can contain *)
(* ===================================================================== *)

Lemma slice_sublist {A} (xs : list A) (a b : num) :
  slice xs a b `sublist_of` xs.
Proof.
  unfold slice. etransitivity; [apply sublist_take | apply sublist_drop].
Qed.

Lemma visibleNotes_sublist (includeDeleted : option jsstring)
    (notes : list Note) :
  visibleNotes includeDeleted notes `sublist_of` notes.
Proof. unfold visibleNotes. case_decide; [done | apply sublist_filter]. Qed.

Lemma searchNotes_sublist (toLowerCase : jsstring -> jsstring)
    (search : option jsstring) (notes : list Note) :
  searchNotes toLowerCase search notes `sublist_of` notes.
Proof.
  destruct search as [term|]; [|done]. simpl.
  case_decide; [done | apply sublist_filter].
Qed.

Lemma sublist_Forall_keep {A} (P : A -> Prop) (xs ys : list A) :
  xs `sublist_of` ys -> Forall P ys -> Forall P xs.
Proof.
  intros Hsub Hys. apply list.Forall_forall. intros x Hx.
  apply (proj1 (list.Forall_forall P ys) Hys).
  by eapply elem_of_sublist.
Qed.

(** X11.  Whatever the query, [page] and [limit] that are not numbers
    included, the items of [GET /notes] are records of the stored
    collection, in its order and none twice over (a sublist of it); none
    of them is deleted unless [includeDeleted] is exactly ["true"], and
    with a non-empty search term every one of them matches it. *)
Theorem listNotes_items (toLowerCase : jsstring -> jsstring) (q : query)
    (notes : list Note) :
  exists items pg,
    listNotes toLowerCase q (Stored notes) =
      (mkResponse 200 (NotesPage items pg), Stored notes) /\
    items `sublist_of` notes /\
    (q_includeDeleted q <> Some (js "true") ->
     Forall (fun n => deleted n = false) items) /\
    (forall term, q_search q = Some term -> term <> [] ->
     Forall (matchesSearch toLowerCase term) items).
Proof.
  rewrite listNotes_Stored. cbv zeta. rewrite filterNotes_spec.
  eexists _, _. split; [reflexivity|].
  set (filtered := searchNotes toLowerCase (q_search q)
                     (visibleNotes (q_includeDeleted q) notes)).
  split; [|split].
  - etransitivity; [apply slice_sublist|].
    etransitivity; [apply searchNotes_sublist | apply visibleNotes_sublist].
  - intros Hincl. apply (sublist_Forall_keep _ _ _ (slice_sublist _ _ _)).
    apply (sublist_Forall_keep _ _ _ (searchNotes_sublist _ _ _)).
    unfold visibleNotes. rewrite decide_False by done.
    apply list.Forall_forall. intros n Hn.
    by apply list_elem_of_filter in Hn as [? _].
  - intros term Hterm Hne.
    apply (sublist_Forall_keep _ _ _ (slice_sublist _ _ _)).
    unfold filtered. rewrite Hterm. simpl. rewrite decide_False by done.
    apply list.Forall_forall. intros n Hn.
    by apply list_elem_of_filter in Hn as [? _].
Qed.

(** X11 for a page that is not a number and a search on the demo
    collection. *)
Lemma listNotes_items_witness :
  exists items pg,
    listNotes lowerASCII
      (mkQuery (Some (js "-1")) (Some (js "2")) (Some (js "PROJECT")) None)
      (Stored sevenNotes) =
      (mkResponse 200 (NotesPage items pg), Stored sevenNotes) /\
    Forall (fun n => deleted n = false) items /\
    Forall (matchesSearch lowerASCII (js "PROJECT")) items.
Proof.
  destruct (listNotes_items lowerASCII
              (mkQuery (Some (js "-1")) (Some (js "2"))
                 (Some (js "PROJECT")) None) sevenNotes)
    as (items & pg & Hrun & _ & Hvis & Hmatch).
  exists items, pg. split; [exact Hrun|]. split.
  - apply Hvis. discriminate.
  - apply (Hmatch (js "PROJECT")); [reflexivity | discriminate].
Defined.

(* ===================================================================== *)
(** ** Listing: the pages together *)
(* ===================================================================== *)

Lemma concat_windows {A} (xs : list A) (l k : nat) :
  concat ((fun i => take l (drop (i * l) xs)) <$> seq 0 k) = take (k * l) xs.
Proof.
  induction k as [|k IH]; [done|].
  rewrite seq_S, fmap_app, concat_app, IH. simpl.
  rewrite app_nil_r, take_take_drop. f_equal. lia.
Qed.

(** X12.  For a positive [limit] below 2^53, on a collection of fewer
    than 2^32 records (the most a JavaScript array holds), the pages
    1, 2, ... up to the [totalPages] that every answer reports (for a
    [page] below 2^53), one after the other, are the whole filtered
    sequence: every matching record is on exactly one page, in the
    order of the collection. *)
Theorem pages_cover (toLowerCase : jsstring -> jsstring)
    (notes : list Note) (search includeDeleted : option jsstring) (l : N) :
  0 < l < 2 ^ 53 ->
  N.of_nat (length notes) < 2 ^ 32 ->
  exists pages : nat,
    (forall p, 0 < p < 2 ^ 53 ->
       exists items pg,
         listed (listNotes toLowerCase
                   (mkQuery (Some (decimal p)) (Some (decimal l))
                      search includeDeleted) (Stored notes)).1 =
           Some (items, pg) /\
         totalPages pg = numOfNat pages) /\
    concat (pageItems toLowerCase notes search includeDeleted l <$>
              (N.of_nat <$> seq 1 pages)) =
    searchNotes toLowerCase search (visibleNotes includeDeleted notes).
Proof.
  intros [Hl Hl'] Hlen.
  set (filtered := searchNotes toLowerCase search
                     (visibleNotes includeDeleted notes)).
  set (count := N.of_nat (length filtered)).
  pose proof (ceil_div_bounds count l Hl) as Hceil.
  assert (count <= N.of_nat (length notes)) as Hcount.
  { unfold count, filtered. rewrite <- filterNotes_spec.
    pose proof (filterNotes_length toLowerCase
                  (default (js "false") includeDeleted) search notes).
    lia. }
  assert ((count + l - 1) / l <= count) as Hpages.
  { revert Hceil. generalize ((count + l - 1) / l). intros k Hk. nia. }
  exists (N.to_nat ((count + l - 1) / l)). split.
  - intros p [Hp Hp']. rewrite listNotes_page by done. cbv zeta.
    rewrite filterNotes_spec. eexists _, _. split; [reflexivity|].
    cbn [totalPages]. unfold numOfNat. by rewrite N2Nat.id.
  - rewrite <- list_fmap_compose.
    rewrite <- (fmap_S_seq 0), <- list_fmap_compose.
    transitivity (concat ((fun i => take (N.to_nat l)
                                      (drop (i * N.to_nat l) filtered))
                            <$> seq 0 (N.to_nat ((count + l - 1) / l)))).
    + f_equal. apply list_fmap_ext. intros j i Hi.
      apply lookup_seq in Hi as [-> Hi].
      unfold pageItems, compose. rewrite listNotes_page by lia.
      cbv zeta. rewrite filterNotes_spec. cbn [listed payload fst].
      do 2 f_equal. lia.
    + rewrite concat_windows. apply take_ge. fold filtered.
      revert Hceil. unfold count.
      generalize ((N.of_nat (length filtered) + l - 1) / l).
      intros k Hk. nia.
Qed.

(** X12 on the demo collection, three per page. *)
Lemma pages_cover_witness :
  (0 < 3 < 2 ^ 53 /\ N.of_nat (length sevenNotes) < 2 ^ 32) /\
  pageItems lowerASCII sevenNotes None None 3 1 ++
  pageItems lowerASCII sevenNotes None None 3 2 ++
  pageItems lowerASCII sevenNotes None None 3 3 =
  visibleNotes None sevenNotes.
Proof.
  split; [simpl; lia|].
  destruct (pages_cover lowerASCII sevenNotes None None 3 ltac:(lia)
              ltac:(simpl; lia))
    as (pages & Hpages & Hcover).
  destruct (Hpages 1 ltac:(lia)) as (items & pg & Hrun & Htotal).
  assert (pages = 3%nat) as ->.
  { vm_compute in Hrun. injection Hrun as _ <-.
    unfold numOfNat in Htotal. cbn [totalPages] in Htotal.
    injection Htotal as Htotal. lia. }
  exact Hcover.
Defined.

(* ===================================================================== *)
(** ** Listing: parameters at their edges *)
(* ===================================================================== *)

Lemma filterNotes_not_true (toLowerCase : jsstring -> jsstring)
    (includeDeleted search : option jsstring) (notes : list Note) :
  includeDeleted <> Some (js "true") ->
  filterNotes toLowerCase (default (js "false") includeDeleted) search notes =
  filterNotes toLowerCase (js "false") search notes.
Proof.
  intros Hne. unfold filterNotes.
  destruct includeDeleted as [s|]; [|done]. simpl.
  by rewrite bool_decide_true by congruence.
Qed.

(** X13.  Only the exact string ["true"] switches [includeDeleted] on:
    any other value ("TRUE", "1", "yes", the empty string) lists as if
    the parameter were absent.  And an empty [search] lists as if there
    were no search. *)
Theorem listNotes_flags (toLowerCase : jsstring -> jsstring)
    (page_ limit_ search includeDeleted : option jsstring) (f : file) :
  (includeDeleted <> Some (js "true") ->
   listNotes toLowerCase (mkQuery page_ limit_ search includeDeleted) f =
   listNotes toLowerCase (mkQuery page_ limit_ search None) f) /\
  listNotes toLowerCase (mkQuery page_ limit_ (Some []) includeDeleted) f =
  listNotes toLowerCase (mkQuery page_ limit_ None includeDeleted) f.
Proof.
  split; [|by destruct f].
  intros Hne. destruct f as [| |notes]; [| done |].
  - destruct (routes_same toLowerCase Missing [] eq_refl) as (Hlist & _).
    rewrite !Hlist, !listNotes_Stored.
    cbn [q_page q_limit q_search q_includeDeleted].
    by rewrite filterNotes_not_true.
  - rewrite !listNotes_Stored.
    cbn [q_page q_limit q_search q_includeDeleted].
    by rewrite filterNotes_not_true.
Qed.

(** X13 on the demo collection with [includeDeleted=TRUE]. *)
Lemma listNotes_flags_witness :
  Some (js "TRUE") <> Some (js "true") /\
  listNotes lowerASCII (mkQuery None None None (Some (js "TRUE")))
    (Stored sevenNotes) =
  listNotes lowerASCII (mkQuery None None None None) (Stored sevenNotes).
Proof.
  split; [discriminate|].
  exact (proj1 (listNotes_flags lowerASCII None None None (Some (js "TRUE"))
                  (Stored sevenNotes)) ltac:(discriminate)).
Defined.

Lemma slice_to_zero {A} (xs : list A) (a : num) :
  slice xs a (numOfN 0) = [].
Proof.
  unfold slice, numOfN. rewrite sliceIndex_nonneg. simpl.
  by rewrite Nat.sub_0_l.
Qed.

(** X14.  [limit=0] and [page=0] are answered with 200 and no items,
    for a [page] and a [limit] below 2^53 beside them.  With [limit=0]
    the number of pages is not a number any more: NaN when nothing
    matches and infinity otherwise.  With [page=0] and a positive limit
    the pagination data are those of any other page. *)
Theorem listNotes_zero (toLowerCase : jsstring -> jsstring)
    (notes : list Note) (search includeDeleted : option jsstring) :
  let count :=
    N.of_nat (length (searchNotes toLowerCase search
                        (visibleNotes includeDeleted notes))) in
  (forall p, p < 2 ^ 53 ->
     listNotes toLowerCase
       (mkQuery (Some (decimal p)) (Some (decimal 0)) search includeDeleted)
       (Stored notes) =
     (mkResponse 200
        (NotesPage []
           (mkPagination (numOfN p) (numOfN 0) (numOfN count)
              (if count =? 0 then NaN else Inf false))),
      Stored notes)) /\
  (forall l, 0 < l < 2 ^ 53 ->
     listNotes toLowerCase
       (mkQuery (Some (decimal 0)) (Some (decimal l)) search includeDeleted)
       (Stored notes) =
     (mkResponse 200
        (NotesPage []
           (mkPagination (numOfN 0) (numOfN l) (numOfN count)
              (numOfN ((count + l - 1) / l)))),
      Stored notes)).
Proof.
  intros count. split.
  - intros p Hp. rewrite listNotes_Stored.
    cbn [q_page q_limit q_search q_includeDeleted orDefault]. cbv zeta.
    rewrite !parseInt_small, filterNotes_spec by done. fold count.
    assert (exists s, num_mul (num_sub (numOfN p) (numOfN 1)) (numOfN 0) =
                      Fin s 0) as [s ->].
    { destruct (N.eq_dec p 0) as [->|Hp0].
      - by exists true.
      - rewrite num_sub_one, num_mul_nonneg, N.mul_0_r by lia.
        by exists false. }
    assert (num_add (Fin s 0) (numOfN 0) = numOfN 0) as ->
      by (by destruct s).
    rewrite slice_to_zero. reflexivity.
  - intros l [Hl Hl']. rewrite listNotes_Stored.
    cbn [q_page q_limit q_search q_includeDeleted orDefault]. cbv zeta.
    rewrite !parseInt_small, filterNotes_spec by done. fold count.
    assert (num_sub (numOfN 0) (numOfN 1) = Fin true 1) as -> by done.
    assert (num_add (num_mul (Fin true 1) (numOfN l)) (numOfN l) = numOfN 0)
      as ->.
    { unfold num_mul, numOfN. simpl xorb.
      rewrite N.mul_1_l, toDouble_exact by done.
      unfold num_add, num_to_Z.
      destruct (Z.eqb_spec (- Z.of_N l + Z.of_N l) 0); [done | lia]. }
    rewrite slice_to_zero. unfold numOfNat. fold count. fold (numOfN count).
    by rewrite num_ceil_div_positive.
Qed.

(** X14 on the demo collection. *)
Lemma listNotes_zero_witness :
  0 < 3 < 2 ^ 53 /\
  listNotes lowerASCII (pageQuery 0 3) (Stored sevenNotes) =
    (mkResponse 200
       (NotesPage []
          (mkPagination (numOfN 0) (numOfN 3) (numOfN 7) (numOfN 3))),
     Stored sevenNotes).
Proof.
  split; [lia|].
  exact (proj2 (listNotes_zero lowerASCII sevenNotes None None) 3
           ltac:(lia)).
Defined.

Lemma digitsPrefix_digits_then (s : jsstring) (c : N) (rest : jsstring) :
  Forall isDigit s -> ~ isDigit c ->
  digitsPrefix 10 (s ++ c :: rest) = digitsOf s.
Proof.
  intros Hs Hc. induction Hs as [|d s Hd _ IH].
  - cbn [app digitsPrefix]. unfold digitValue, isDigit in *.
    destruct (N.leb_spec 48 c), (N.leb_spec c 57); simpl; try lia;
      destruct (N.leb_spec 97 c), (N.leb_spec c 122); simpl;
      try (destruct (N.ltb_spec (c - 87) 10); [lia | done]);
      destruct (N.leb_spec 65 c), (N.leb_spec c 90); simpl; try done;
      destruct (N.ltb_spec (c - 55) 10); (lia || done).
  - cbn [app digitsPrefix]. rewrite (digitValue_digit d Hd), IH.
    unfold isDigit in Hd.
    destruct (N.ltb_spec (d - 48) 10); [done | lia].
Qed.

(** [parseInt] stops at the first code unit that is not a digit. *)
Lemma parseIntString_digits_then (s : jsstring) (c : N) (rest : jsstring) :
  s <> [] -> Forall isDigit s ->
  ~ isDigit c -> c <> 120 -> c <> 88 ->
  parseIntString (s ++ c :: rest) =
  toDouble false (digitsValue 10 (digitsOf s)).
Proof.
  intros Hne Hs Hc Hx HX. destruct s as [|d s]; [done|].
  pose proof (Forall_inv Hs) as Hd.
  unfold parseIntString. cbn [app trimStart].
  rewrite (isDigit_not_whiteSpace d Hd).
  assert ((d =? 45) = false /\ (d =? 43) = false) as [-> ->]
    by (unfold isDigit in Hd; split; apply N.eqb_neq; lia).
  assert (match d :: s ++ c :: rest with
          | c0 :: x :: r =>
              if (c0 =? 48) && ((x =? 120) || (x =? 88))
              then (16, r) else (10, d :: s ++ c :: rest)
          | _ => (10, d :: s ++ c :: rest)
          end = (10, d :: s ++ c :: rest)) as ->.
  { destruct s as [|x r]; cbn [app].
    - assert ((c =? 120) = false /\ (c =? 88) = false) as [-> ->]
        by (split; by apply N.eqb_neq).
      by rewrite andb_false_r.
    - pose proof (Forall_inv (Forall_inv_tail Hs)) as Hx'.
      unfold isDigit in Hx'.
      assert ((x =? 120) = false /\ (x =? 88) = false) as [-> ->]
        by (split; apply N.eqb_neq; lia).
      by rewrite andb_false_r. }
  change (d :: s ++ c :: rest) with ((d :: s) ++ c :: rest).
  rewrite (digitsPrefix_digits_then (d :: s) c rest Hs Hc). reflexivity.
Qed.

(** X15.  [page] and [limit] are read by [parseInt], which takes the
    leading digits and ignores what follows: a numeral followed by
    anything that starts with neither a digit nor [x] or [X] lists
    exactly like the numeral alone ([page=2abc] is page 2, [limit=5.9]
    is five per page). *)
Theorem listNotes_trailing_text (toLowerCase : jsstring -> jsstring)
    (p l : N) (c c' : N) (rest rest' : jsstring)
    (search includeDeleted : option jsstring) (f : file) :
  ~ isDigit c -> c <> 120 -> c <> 88 ->
  ~ isDigit c' -> c' <> 120 -> c' <> 88 ->
  listNotes toLowerCase
    (mkQuery (Some (decimal p ++ c :: rest)) (Some (decimal l ++ c' :: rest'))
       search includeDeleted) f =
  listNotes toLowerCase
    (mkQuery (Some (decimal p)) (Some (decimal l)) search includeDeleted) f.
Proof.
  intros Hc Hx HX Hc' Hx' HX'.
  assert (forall n d r, ~ isDigit d -> d <> 120 -> d <> 88 ->
            parseInt (QStr (decimal n ++ d :: r)) =
            parseInt (QStr (decimal n))) as Hparse.
  { intros n d r H1 H2 H3. rewrite parseInt_decimal. unfold parseInt.
    rewrite parseIntString_digits_then;
      try done; [|apply decimal_nonempty|apply decimal_digits].
    by rewrite decimal_value. }
  unfold listNotes, handler, bind.
  destruct (readNotesFile f) as [[notes|e] f']; [|done].
  cbn [q_page q_limit q_search q_includeDeleted orDefault].
  by rewrite !Hparse.
Qed.

(** X15 on the demo collection: [page=2abc&limit=3.5]. *)
Lemma listNotes_trailing_text_witness :
  listNotes lowerASCII
    (mkQuery (Some (js "2abc")) (Some (js "3.5")) None None)
    (Stored sevenNotes) =
  listNotes lowerASCII (pageQuery 2 3) (Stored sevenNotes).
Proof.
  apply (listNotes_trailing_text lowerASCII 2 3 97 46 (js "bc") (js "5")
           None None (Stored sevenNotes));
    unfold isDigit; lia.
Defined.

(* ===================================================================== *)
(** ** Looking up, updating and counting *)
(* ===================================================================== *)

(** X16.  With unique ids, [GET /notes/:id] finds every visible record
    of the collection by its id and answers 200 with that record; for a
    deleted record and for an id that no record has it answers 404. *)
Theorem getNote_lookup (notes : list Note) :
  (forall noteId, noteId ∉ id <$> notes ->
     getNote noteId (Stored notes) = (notFound, Stored notes)) /\
  (forall n, uniqueIds notes -> n ∈ notes ->
     getNote (id n) (Stored notes) =
     (if deleted n then notFound else mkResponse 200 (OneNote n),
      Stored notes)).
Proof.
  split.
  - intros noteId Hno. rewrite getNote_Stored. by rewrite list_find_absent.
  - intros n Hnd [k Hk]%list_elem_of_lookup. rewrite getNote_Stored.
    by rewrite (list_find_unique notes k n Hnd Hk).
Qed.

(** X16 on the demo collection. *)
Lemma getNote_lookup_witness :
  uniqueIds sevenNotes /\
  getNote (decimal 5) (Stored sevenNotes) =
    (mkResponse 200 (OneNote (demoNote 5 "Ideas" "write more tests" false)),
     Stored sevenNotes) /\
  getNote (decimal 3) (Stored sevenNotes) = (notFound, Stored sevenNotes).
Proof.
  split; [exact sevenNotes_uniqueIds|].
  destruct (getNote_lookup sevenNotes) as [_ Hfound]. split.
  - apply (Hfound (demoNote 5 "Ideas" "write more tests" false)
             sevenNotes_uniqueIds).
    apply (bool_decide_unpack _). vm_compute. reflexivity.
  - apply (Hfound (demoNote 3 "Old draft" "superseded" true)
             sevenNotes_uniqueIds).
    apply (bool_decide_unpack _). vm_compute. reflexivity.
Defined.

(** X17.  A [PUT /notes/:id] that is answered with 200 is read back:
    [GET /notes/:id] on the same id then answers 200 with the very note
    the update returned. *)
Theorem update_then_get (notes : list Note) (noteId : jsstring)
    (titleIn contentIn : jsval) (r : response) (f1 : file) :
  updateNote noteId titleIn contentIn (Stored notes) = (r, f1) ->
  status r = 200%nat ->
  exists n',
    r = mkResponse 200 (OneNote n') /\
    id n' = noteId /\
    getNote noteId f1 = (mkResponse 200 (OneNote n'), f1).
Proof.
  intros Hrun Hstatus.
  destruct (updateNote_cases noteId titleIn contentIn notes)
    as [[_ H]|[[_ H]|(t & c & k & n & _ & _ & _ & Hfind & Hvis & H)]];
    rewrite H in Hrun; injection Hrun as <- <-; try done.
  pose proof (proj1 (list_find_Some _ _ _ _) Hfind) as (_ & Hid & _).
  eexists. split; [reflexivity|]. split; [exact Hid|].
  rewrite getNote_Stored.
  rewrite (list_find_replace notes noteId k n
             (withTitleContent n (trim t) (trim c)) Hfind Hid).
  cbn [withTitleContent deleted]. by rewrite Hvis.
Qed.

(** X17 on the demo collection. *)
Lemma update_then_get_witness :
  exists n',
    (updateNote (decimal 2) planTitle planContent (Stored sevenNotes)).1 =
      mkResponse 200 (OneNote n') /\
    title n' = js "Project Plan" /\
    getNote (decimal 2)
      (updateNote (decimal 2) planTitle planContent (Stored sevenNotes)).2 =
      (mkResponse 200 (OneNote n'),
       (updateNote (decimal 2) planTitle planContent (Stored sevenNotes)).2).
Proof.
  destruct (update_then_get sevenNotes (decimal 2) planTitle planContent
              _ _ eq_refl eq_refl) as (n' & Hr & _ & Hget).
  exists n'. split; [exact Hr|]. split; [|exact Hget].
  injection Hr as <-. reflexivity.
Defined.

(** X18.  [PUT /notes/:id] with a body that passes validation answers
    404 and writes nothing when no record has the id, and (ids being
    unique) when the record with the id is deleted: a deleted note
    cannot be edited. *)
Theorem update_not_found (notes : list Note) (titleIn contentIn : jsval) :
  validateNote titleIn contentIn = [] ->
  (forall noteId, noteId ∉ id <$> notes ->
     updateNote noteId titleIn contentIn (Stored notes) =
       (notFound, Stored notes)) /\
  (forall n, uniqueIds notes -> n ∈ notes -> deleted n = true ->
     updateNote (id n) titleIn contentIn (Stored notes) =
       (notFound, Stored notes)).
Proof.
  intros Hv. destruct (validateNote_nil _ _ Hv) as (t & c & -> & -> & _).
  split.
  - intros noteId Hno. rewrite updateNote_Stored by done.
    by rewrite list_find_absent.
  - intros n Hnd [k Hk]%list_elem_of_lookup Hdel.
    rewrite updateNote_Stored by done.
    by rewrite (list_find_unique notes k n Hnd Hk), Hdel.
Qed.

(** X18 on the demo collection: note 3 is deleted. *)
Lemma update_not_found_witness :
  validateNote planTitle planContent = [] /\
  updateNote (decimal 3) planTitle planContent (Stored sevenNotes) =
    (notFound, Stored sevenNotes).
Proof.
  split; [reflexivity|].
  apply (proj2 (update_not_found sevenNotes planTitle planContent eq_refl)
           (demoNote 3 "Old draft" "superseded" true) sevenNotes_uniqueIds).
  - apply (bool_decide_unpack _). vm_compute. reflexivity.
  - reflexivity.
Defined.

Lemma totalOf_Stored (toLowerCase : jsstring -> jsstring)
    (page_ limit_ includeDeleted : option jsstring) (notes : list Note) :
  totalOf toLowerCase (mkQuery page_ limit_ None includeDeleted)
    (Stored notes) =
  Some (numOfNat (length (visibleNotes includeDeleted notes))).
Proof.
  unfold totalOf. rewrite listNotes_Stored. cbv zeta.
  by rewrite filterNotes_spec.
Qed.

Lemma visible_count_deleted (notes : list Note) (k : nat) (n : Note) :
  notes !! k = Some n -> deleted n = false ->
  S (length (visibleNotes None (<[k := markDeleted n]> notes))) =
  length (visibleNotes None notes).
Proof.
  intros Hk Hvis. unfold visibleNotes. rewrite !decide_False by done.
  rewrite insert_take_drop by by eapply lookup_lt_Some.
  rewrite <- (take_drop_middle notes k n Hk) at 3.
  rewrite !list.filter_app, !length_app.
  rewrite filter_cons_False by done. rewrite filter_cons_True by done.
  simpl. lia.
Qed.

(** X19.  The totals follow the mutations.  After a [DELETE] answered
    with 200 the listing counts one record less and the listing with
    [includeDeleted=true] as many as before; after a [POST] answered
    with 201 both count one more.  This holds for every [page] and
    [limit]. *)
Theorem totals_follow (toLowerCase : jsstring -> jsstring)
    (notes : list Note) (page_ limit_ : option jsstring) :
  let visible := mkQuery page_ limit_ None None in
  let all := mkQuery page_ limit_ None (Some (js "true")) in
  let before := length (visibleNotes None notes) in
  totalOf toLowerCase visible (Stored notes) = Some (numOfNat before) /\
  totalOf toLowerCase all (Stored notes) = Some (numOfNat (length notes)) /\
  (forall noteId r f1,
     deleteNote noteId (Stored notes) = (r, f1) -> status r = 200%nat ->
     S (length (visibleNotes None (default [] (collection f1)))) = before /\
     totalOf toLowerCase visible f1 = Some (numOfNat (before - 1)) /\
     totalOf toLowerCase all f1 = Some (numOfNat (length notes))) /\
  (forall uuid now titleIn contentIn r f1,
     createNote uuid now titleIn contentIn (Stored notes) = (r, f1) ->
     status r = 201%nat ->
     totalOf toLowerCase visible f1 = Some (numOfNat (before + 1)) /\
     totalOf toLowerCase all f1 = Some (numOfNat (length notes + 1))).
Proof.
  intros visible all before. unfold visible, all.
  split; [apply totalOf_Stored|].
  split; [by rewrite totalOf_Stored, visibleNotes_included|].
  split.
  - intros noteId r f1 Hrun Hstatus.
    destruct (deleteNote_success _ _ _ _ Hrun Hstatus)
      as (k & n & Hfind & Hvis & _ & ->).
    apply list_find_Some in Hfind as (Hk & _).
    pose proof (visible_count_deleted notes k n Hk Hvis) as Hcount.
    fold before in Hcount. cbn [collection default].
    split; [exact Hcount|].
    rewrite !totalOf_Stored, visibleNotes_included, length_insert.
    split; [|done]. do 2 f_equal. lia.
  - intros uuid now titleIn contentIn r f1 Hrun Hstatus.
    destruct (createNote_cases uuid now titleIn contentIn notes)
      as [[_ H]|(t & c & _ & _ & _ & H)];
      rewrite H in Hrun; injection Hrun as <- <-; [done|].
    rewrite !totalOf_Stored, visibleNotes_included, length_app.
    split; [|done]. do 2 f_equal.
    unfold visibleNotes. rewrite !decide_False by done.
    rewrite list.filter_app, length_app.
    by rewrite filter_cons_True.
Qed.

(** X19 on the demo collection: note 5 is deleted. *)
Lemma totals_follow_witness :
  totalOf lowerASCII (mkQuery None None None None) (Stored sevenNotes) =
    Some (numOfN 7) /\
  totalOf lowerASCII (mkQuery None None None None)
    (deleteNote (decimal 5) (Stored sevenNotes)).2 = Some (numOfN 6) /\
  totalOf lowerASCII includeDeletedQuery
    (deleteNote (decimal 5) (Stored sevenNotes)).2 = Some (numOfN 8).
Proof.
  destruct (totals_follow lowerASCII sevenNotes None None)
    as (Hbefore & _ & Hdelete & _).
  split; [exact Hbefore|].
  destruct (Hdelete (decimal 5) _ _ eq_refl eq_refl) as (_ & Hvis & Hall).
  split; [exact Hvis | exact Hall].
Defined.

(* ===================================================================== *)
(** ** Creating *)
(* ===================================================================== *)

(** X20.  A [POST /notes] answered with 201 appends exactly one record,
    the note it returns, at the end of the collection (an empty one if
    there was no file): the note has the id and the time stamp handed
    out during the call, is not deleted, and is well-formed. *)
Theorem create_appends (uuid now : jsstring) (titleIn contentIn : jsval)
    (f f1 : file) (notes : list Note) (r : response) :
  collection f = Some notes ->
  createNote uuid now titleIn contentIn f = (r, f1) ->
  status r = 201%nat ->
  exists n,
    r = mkResponse 201 (OneNote n) /\
    f1 = Stored (notes ++ [n]) /\
    id n = uuid /\ createdAt n = now /\ deleted n = false /\
    wellFormed n.
Proof.
  intros Hf Hrun Hstatus.
  destruct (decide (validateNote titleIn contentIn = [])) as [Hv|Hv].
  - destruct (validateNote_nil _ _ Hv) as (t & c & -> & -> & _).
    rewrite (createNote_valid uuid now t c f notes Hv Hf) in Hrun.
    injection Hrun as <- <-. eexists. repeat (split; [reflexivity|]).
    by apply wellFormed_created.
  - destruct (invalid_body titleIn contentIn f uuid now [] Hv) as [H _].
    rewrite H in Hrun. by injection Hrun as <- <-.
Qed.

(** X20 for the first note of a first run. *)
Lemma create_appends_witness :
  collection Missing = Some [] /\
  exists n,
    createNote (decimal 1) (js "2025-06-27T08:15:30.000Z")
      planTitle planContent Missing =
      (mkResponse 201 (OneNote n), Stored [n]) /\
    title n = js "Project Plan".
Proof.
  split; [reflexivity|].
  destruct (create_appends (decimal 1) (js "2025-06-27T08:15:30.000Z")
              planTitle planContent Missing _ [] _ eq_refl eq_refl eq_refl)
    as (n & Hr & Hf1 & _).
  exists n. injection Hr as <-. split; reflexivity.
Defined.
